(** * RSSI distance estimation (src/src/distance-estimator.js)

    A shallow embedding of the Kalman filter, the single-radio distance
    estimator and the multi-radio fusion estimator, followed by the
    properties the specification states about them.

    Numbers.  JavaScript numbers are modelled as real numbers: [+], [-],
    [*], [/] are the operations of [R], [Math.round] is [floor (x + 1/2)],
    [Math.pow (10, e)] is [Rpower 10 e], [Math.log10] is the logarithm in
    base ten and [Math.sqrt] is [sqrt].  NaN, the infinities and binary
    rounding are outside the model.  Comparisons that the code branches on
    are booleans ([ltb], [leb]) obtained from the decidable order of [R].

    Objects.  A class instance is a record and a method is a function from
    the record (and the arguments) to the new record (and the result).
    [Date.now ()] is an argument of the method that reads the clock.  The
    object literals the methods return are inductive types with one
    constructor per literal of the source, and reading a property of such
    an object goes through [JsProp], which keeps "the property is absent"
    ([Absent], what JavaScript reads as [undefined]) apart from "the
    property is [null]". *)

From Stdlib Require Import Reals Lra Lia ZArith Bool String List.
Import ListNotations.
Open Scope R_scope.

(** ** The part of [Math] the module uses *)

Definition ltb (a b : R) : bool := if Rlt_dec a b then true else false.
Definition leb (a b : R) : bool := if Rle_dec a b then true else false.

Definition Math_round (x : R) : R := IZR (Zfloor (x + / 2)).
Definition Math_min (a b : R) : R := Rmin a b.
Definition Math_max (a b : R) : R := Rmax a b.
Definition Math_abs (x : R) : R := Rabs x.
Definition Math_sqrt (x : R) : R := sqrt x.
Definition Math_pow (b e : R) : R := Rpower b e.
Definition Math_log10 (x : R) : R := ln x / ln 10.

(** [Math.min (...values)] and [Math.max (...values)] on a non-empty array. *)
Definition Math_min_of (values : list R) : R :=
  match values with
  | [] => 0
  | v :: rest => fold_left Rmin rest v
  end.

Definition Math_max_of (values : list R) : R :=
  match values with
  | [] => 0
  | v :: rest => fold_left Rmax rest v
  end.

(** [values.reduce ((a, b) => a + b, 0)] *)
Definition sum (values : list R) : R := fold_left Rplus values 0.

(** [values.reduce ((sum, val) => sum + Math.pow (val - mean, 2), 0)];
    the square is written as a product, which is what [Math.pow (x, 2)]
    is for every real [x], negative ones included. *)
Definition sum_sq_dev (mean : R) (values : list R) : R :=
  fold_left (fun acc val => acc + (val - mean) * (val - mean)) values 0.

(** Rounding to two decimals, [Math.round (x * 100) / 100]. *)
Definition round2 (x : R) : R := Math_round (x * 100) / 100.

(** Reading a property of a JavaScript object. *)
Inductive JsProp (A : Type) : Type :=
| Absent : JsProp A
| Null : JsProp A
| Value : A -> JsProp A.
Arguments Absent {A}.
Arguments Null {A}.
Arguments Value {A} _.

(** ** SignalModels *)

Record SignalModel : Type := mkSignalModel {
  name : string;
  referenceRssi : R;
  referenceDistance : R;
  pathLossExponent : R;
  minRssi : R;
  maxRssi : R;
  maxReliableDistance : R
}.

Module SignalModels.

Definition BLE : SignalModel :=
  mkSignalModel "Bluetooth Low Energy" (-59) 1.0 2.0 (-100) (-20) 30.

Definition WIFI_2G : SignalModel :=
  mkSignalModel "WiFi 2.4GHz" (-40) 1.0 2.7 (-100) (-10) 50.

Definition WIFI_5G : SignalModel :=
  mkSignalModel "WiFi 5GHz" (-42) 1.0 3.0 (-95) (-10) 40.

Definition LORA : SignalModel :=
  mkSignalModel "LoRa" (-30) 1.0 2.3 (-140) (-10) 2000.

(** [SignalModels[radioType]], [None] when the table has no such key. *)
Definition lookup (radioType : string) : option SignalModel :=
  if String.eqb radioType "BLE" then Some BLE
  else if String.eqb radioType "WIFI_2G" then Some WIFI_2G
  else if String.eqb radioType "WIFI_5G" then Some WIFI_5G
  else if String.eqb radioType "LORA" then Some LORA
  else None.

End SignalModels.

(** ** class KalmanFilter *)

Module KalmanFilter.

(** [noiseQ] and [noiseR] are the fields [this.Q] and [this.R]. *)
Record state : Type := mk {
  noiseQ : R;
  noiseR : R;
  estimate : R;
  errorCovariance : R;
  sampleCount : nat
}.

(** [constructor (processNoise, measurementNoise, initialEstimate,
    initialError)] *)
Definition new (processNoise measurementNoise initialEstimate
                initialError : R) : state :=
  mk processNoise measurementNoise initialEstimate initialError 0.

(** [new KalmanFilter ()], every argument at its default. *)
Definition default : state := new 0.125 4 (-60) 1.

(** [update (measurement)]: the new state and the returned estimate. *)
Definition update (this : state) (measurement : R) : state * R :=
  let predictedEstimate := estimate this in
  let predictedError := errorCovariance this + noiseQ this in
  let kalmanGain := predictedError / (predictedError + noiseR this) in
  let estimate' :=
    predictedEstimate + kalmanGain * (measurement - predictedEstimate) in
  let errorCovariance' := (1 - kalmanGain) * predictedError in
  (mk (noiseQ this) (noiseR this) estimate' errorCovariance'
      (S (sampleCount this)),
   estimate').

(** [reset (initialEstimate)] *)
Definition reset (this : state) (initialEstimate : R) : state :=
  mk (noiseQ this) (noiseR this) initialEstimate 1 0.

(** [getConfidence ()] *)
Definition getConfidence (this : state) : R :=
  let maxError := 10 in
  let confidence := 1 - Math_min (errorCovariance this / maxError) 1 in
  Math_max 0 confidence.

(** The filter after [update] has been called on each measurement of the
    list in turn. *)
Definition feed (this : state) (measurements : list R) : state :=
  fold_left (fun st m => fst (update st m)) measurements this.

End KalmanFilter.

(** ** class DistanceEstimator *)

Module DistanceEstimator.

(** An entry of [rawHistory]: [{ rssi, timestamp: Date.now () }]. *)
Record Reading : Type := mkReading {
  rssi : R;
  timestamp : Z
}.

Record state : Type := mk {
  model : SignalModel;
  kalmanFilter : KalmanFilter.state;
  rawHistory : list Reading;
  maxHistoryLength : nat
}.

(** [constructor (radioType, customModel)];
    [customModel || SignalModels[radioType] || SignalModels.BLE]. *)
Definition new (radioType : string) (customModel : option SignalModel)
  : state :=
  let model :=
    match customModel with
    | Some m => m
    | None =>
        match SignalModels.lookup radioType with
        | Some m => m
        | None => SignalModels.BLE
        end
    end in
  mk model (KalmanFilter.new 0.125 4 (referenceRssi model) 1) [] 50.

(** The two object literals [estimateDistance] returns.
    [OutOfRange c f r e] is
    [{ distance: null, confidence: c, filteredRssi: f, rawRssi: r,
       error: e }] and [Estimated d c f r m b] is
    [{ distance: d, confidence: c, filteredRssi: f, rawRssi: r,
       model: m, reliable: b }]. *)
Inductive DistanceEstimate : Type :=
| OutOfRange (confidence filteredRssi rawRssi : R) (error : string)
| Estimated (distance confidence filteredRssi rawRssi : R)
            (model : string) (reliable : bool).

Definition distance_of (e : DistanceEstimate) : JsProp R :=
  match e with
  | OutOfRange _ _ _ _ => Null
  | Estimated d _ _ _ _ _ => Value d
  end.

Definition confidence_of (e : DistanceEstimate) : JsProp R :=
  match e with
  | OutOfRange c _ _ _ => Value c
  | Estimated _ c _ _ _ _ => Value c
  end.

Definition filteredRssi_of (e : DistanceEstimate) : JsProp R :=
  match e with
  | OutOfRange _ f _ _ => Value f
  | Estimated _ _ f _ _ _ => Value f
  end.

Definition rawRssi_of (e : DistanceEstimate) : JsProp R :=
  match e with
  | OutOfRange _ _ r _ => Value r
  | Estimated _ _ _ r _ _ => Value r
  end.

Definition model_of (e : DistanceEstimate) : JsProp string :=
  match e with
  | OutOfRange _ _ _ _ => Absent
  | Estimated _ _ _ _ m _ => Value m
  end.

Definition reliable_of (e : DistanceEstimate) : JsProp bool :=
  match e with
  | OutOfRange _ _ _ _ => Absent
  | Estimated _ _ _ _ _ b => Value b
  end.

Definition error_of (e : DistanceEstimate) : JsProp string :=
  match e with
  | OutOfRange _ _ _ msg => Value msg
  | Estimated _ _ _ _ _ _ => Absent
  end.

(** [calculateRssiStability ()] *)
Definition calculateRssiStability (this : state) : R :=
  if (length (rawHistory this) <? 3)%nat then 0.5
  else
    let values := map rssi (rawHistory this) in
    let mean := sum values / INR (length values) in
    let variance := sum_sq_dev mean values / INR (length values) in
    let stdDev := Math_sqrt variance in
    let maxStdDev := 10 in
    let stability := 1 - Math_min (stdDev / maxStdDev) 1 in
    stability.

(** [calculateConfidence (filteredRssi, distance)] *)
Definition calculateConfidence (this : state) (filteredRssi distance : R)
  : R :=
  let filterConfidence := KalmanFilter.getConfidence (kalmanFilter this) in
  let sampleConfidence :=
    Math_min (INR (length (rawHistory this)) / 10) 1 in
  let varianceConfidence := calculateRssiStability this in
  let distanceConfidence :=
    if leb distance (maxReliableDistance (model this))
    then 1 - (distance / maxReliableDistance (model this)) * 0.5
    else 0.1 in
  let confidence :=
    filterConfidence * 0.25 + sampleConfidence * 0.25
    + varianceConfidence * 0.3 + distanceConfidence * 0.2 in
  Math_round (confidence * 100) / 100.

(** [this.rawHistory.push ({ rssi, timestamp: Date.now () })] followed by
    the trim [if (length > maxHistoryLength) shift ()]. *)
Definition record (this : state) (rssi : R) (now : Z) : list Reading :=
  let pushed := rawHistory this ++ [mkReading rssi now] in
  if (maxHistoryLength this <? length pushed)%nat then tl pushed
  else pushed.

(** [estimateDistance (rssi, useFilter)]; [now] is what [Date.now ()]
    returns during the call. *)
Definition estimateDistance (this : state) (rssi : R) (useFilter : bool)
                            (now : Z) : state * DistanceEstimate :=
  if ltb rssi (minRssi (model this)) || ltb (maxRssi (model this)) rssi
  then (this, OutOfRange 0 rssi rssi "RSSI out of valid range")
  else
    let history := record this rssi now in
    let (filter, filteredRssi) :=
      if useFilter then KalmanFilter.update (kalmanFilter this) rssi
      else (kalmanFilter this, rssi) in
    let this' := mk (model this) filter history (maxHistoryLength this) in
    let exponent :=
      (referenceRssi (model this) - filteredRssi)
      / (10 * pathLossExponent (model this)) in
    let distance :=
      referenceDistance (model this) * Math_pow 10 exponent in
    let confidence := calculateConfidence this' filteredRssi distance in
    (this',
     Estimated (Math_round (distance * 100) / 100)
               confidence
               (Math_round (filteredRssi * 10) / 10)
               rssi
               (name (model this))
               (leb distance (maxReliableDistance (model this)))).

(** The argument of [updateModel]: the properties the object carries. *)
Record ModelUpdates : Type := mkUpdates {
  set_name : option string;
  set_referenceRssi : option R;
  set_referenceDistance : option R;
  set_pathLossExponent : option R;
  set_minRssi : option R;
  set_maxRssi : option R;
  set_maxReliableDistance : option R
}.

Definition override {A : Type} (old : A) (upd : option A) : A :=
  match upd with
  | Some v => v
  | None => old
  end.

(** [updateModel (updates)]: [{ ...this.model, ...updates }]. *)
Definition updateModel (this : state) (updates : ModelUpdates) : state :=
  let m := model this in
  mk (mkSignalModel
        (override (name m) (set_name updates))
        (override (referenceRssi m) (set_referenceRssi updates))
        (override (referenceDistance m) (set_referenceDistance updates))
        (override (pathLossExponent m) (set_pathLossExponent updates))
        (override (minRssi m) (set_minRssi updates))
        (override (maxRssi m) (set_maxRssi updates))
        (override (maxReliableDistance m)
                  (set_maxReliableDistance updates)))
     (kalmanFilter this) (rawHistory this) (maxHistoryLength this).

Definition with_referenceRssi (m : SignalModel) (r : R) : SignalModel :=
  mkSignalModel (name m) r (referenceDistance m) (pathLossExponent m)
                (minRssi m) (maxRssi m) (maxReliableDistance m).

(** [calibrate (knownDistance, rssiSamples)] *)
Definition calibrate (this : state) (knownDistance : R)
                     (rssiSamples : list R) : state * bool :=
  if (length rssiSamples <? 5)%nat then (this, false)
  else
    let meanRssi := sum rssiSamples / INR (length rssiSamples) in
    let referenceRssi' :=
      if ltb (Math_abs (knownDistance - 1.0)) 0.1
      then Math_round meanRssi
      else
        let estimatedRssiAt1m :=
          meanRssi
          + 10 * pathLossExponent (model this) * Math_log10 knownDistance in
        Math_round estimatedRssiAt1m in
    (mk (with_referenceRssi (model this) referenceRssi')
        (KalmanFilter.reset (kalmanFilter this) meanRssi)
        (rawHistory this) (maxHistoryLength this),
     true).

(** What [getStats ()] returns: [{ samples: 0 }], or the object with all
    eight properties. *)
Inductive Stats : Type :=
| NoSamples
| Summary (samples : nat)
          (mean min max range stdDev filteredRssi filterConfidence : R).

Definition samples_of (s : Stats) : nat :=
  match s with
  | NoSamples => 0
  | Summary n _ _ _ _ _ _ _ => n
  end.

(** [getStats ()] *)
Definition getStats (this : state) : Stats :=
  if (length (rawHistory this) =? 0)%nat then NoSamples
  else
    let values := map rssi (rawHistory this) in
    let mean := sum values / INR (length values) in
    let min := Math_min_of values in
    let max := Math_max_of values in
    let variance := sum_sq_dev mean values / INR (length values) in
    Summary (length values)
            (Math_round (mean * 10) / 10)
            min max (max - min)
            (Math_round (Math_sqrt variance * 10) / 10)
            (Math_round (KalmanFilter.estimate (kalmanFilter this) * 10)
             / 10)
            (KalmanFilter.getConfidence (kalmanFilter this)).

(** [reset ()] *)
Definition reset (this : state) : state :=
  mk (model this)
     (KalmanFilter.reset (kalmanFilter this) (referenceRssi (model this)))
     [] (maxHistoryLength this).

(** The calls that change an estimator, and the estimators a program
    can hold: a constructed one, after any sequence of such calls. *)
Inductive call : Type :=
| CallEstimateDistance (rssi : R) (useFilter : bool) (now : Z)
| CallUpdateModel (updates : ModelUpdates)
| CallCalibrate (knownDistance : R) (rssiSamples : list R)
| CallReset.

Definition perform (this : state) (c : call) : state :=
  match c with
  | CallEstimateDistance rssi useFilter now =>
      fst (estimateDistance this rssi useFilter now)
  | CallUpdateModel updates => updateModel this updates
  | CallCalibrate knownDistance rssiSamples =>
      fst (calibrate this knownDistance rssiSamples)
  | CallReset => reset this
  end.

Inductive reachable : state -> Prop :=
| reachable_new radioType customModel :
    reachable (new radioType customModel)
| reachable_call this c :
    reachable this -> reachable (perform this c).

(** [rssi] passes the validation at the head of [estimateDistance]. *)
Definition in_range (m : SignalModel) (rssi : R) : Prop :=
  minRssi m <= rssi <= maxRssi m.

(** The estimator after [estimateDistance (rssi)] (filter on) has been
    called for each sample; the n-th call reads the clock [clock n]. *)
Fixpoint feed_from (this : state) (samples : list R) (clock : nat -> Z)
                   (n : nat) : state :=
  match samples with
  | [] => this
  | rssi :: rest =>
      feed_from (fst (estimateDistance this rssi true (clock n)))
                rest clock (S n)
  end.

Definition feed (this : state) (samples : list R) (clock : nat -> Z)
  : state :=
  feed_from this samples clock 0.

End DistanceEstimator.

(** ** class MultiRadioEstimator *)

Module MultiRadioEstimator.

(** [this.estimators] and [this.fusionWeights] are objects used as maps
    from radio type to value; the list keeps the keys in insertion order,
    the order in which [Object.entries] visits keys that are not array
    indices (radio types are names such as "BLE"). *)
Record state : Type := mk {
  estimators : list (string * DistanceEstimator.state);
  fusionWeights : list (string * R)
}.

Definition new : state :=
  mk [] [("BLE"%string, 1.0); ("WIFI_2G"%string, 0.8);
         ("WIFI_5G"%string, 0.7); ("LORA"%string, 0.5)].

(** [obj[key]] *)
Fixpoint get {A : Type} (key : string) (obj : list (string * A))
  : option A :=
  match obj with
  | [] => None
  | (k, v) :: rest => if String.eqb k key then Some v else get key rest
  end.

(** [obj[key] = v]: an existing key keeps its place, a new one goes
    last. *)
Fixpoint set {A : Type} (key : string) (v : A) (obj : list (string * A))
  : list (string * A) :=
  match obj with
  | [] => [(key, v)]
  | (k, x) :: rest =>
      if String.eqb k key then (k, v) :: rest
      else (k, x) :: set key v rest
  end.

(** [getEstimator (radioType)] *)
Definition getEstimator (this : state) (radioType : string)
  : state * DistanceEstimator.state :=
  match get radioType (estimators this) with
  | Some estimator => (this, estimator)
  | None =>
      let estimator := DistanceEstimator.new radioType None in
      (mk (set radioType estimator (estimators this))
          (fusionWeights this),
       estimator)
  end.

(** [addReading (radioType, rssi)]; the estimator is changed in place,
    which here is writing it back under its key. *)
Definition addReading (this : state) (radioType : string) (rssi : R)
                      (now : Z)
  : state * DistanceEstimator.DistanceEstimate :=
  let (this1, estimator) := getEstimator this radioType in
  let (estimator', result) :=
    DistanceEstimator.estimateDistance estimator rssi true now in
  (mk (set radioType estimator' (estimators this1)) (fusionWeights this1),
   result).

(** An element of [estimates], later of [breakdown]. *)
Record Source : Type := mkSource {
  radioType : string;
  distance : R;
  confidence : R;
  weight : R
}.

(** [this.fusionWeights[radioType] || 0.5] *)
Definition weight_for (this : state) (radioType : string) : R :=
  match get radioType (fusionWeights this) with
  | Some w => if Req_dec_T w 0 then 0.5 else w
  | None => 0.5
  end.

(** The body of the loop over [Object.entries (this.estimators)] for one
    entry: the estimator as the body leaves it and what was pushed on
    [estimates]. *)
Definition visit (this : state) (radioType : string)
                 (estimator : DistanceEstimator.state) (now : Z)
  : DistanceEstimator.state * list Source :=
  match DistanceEstimator.getStats estimator with
  | DistanceEstimator.NoSamples => (estimator, [])
  | DistanceEstimator.Summary samples _ _ _ _ _ filteredRssi _ =>
      if (0 <? samples)%nat then
        let (estimator', estimate) :=
          DistanceEstimator.estimateDistance estimator filteredRssi false
                                             now in
        match DistanceEstimator.distance_of estimate,
              DistanceEstimator.confidence_of estimate with
        | Value d, Value c =>
            (estimator',
             [mkSource radioType d c (weight_for this radioType)])
        | _, _ => (estimator', [])
        end
      else (estimator, [])
  end.

(** The whole loop; the entry at position [i] reads the clock
    [clock i]. *)
Fixpoint visit_all (this : state)
                   (entries : list (string * DistanceEstimator.state))
                   (clock : nat -> Z) (i : nat)
  : list (string * DistanceEstimator.state) * list Source :=
  match entries with
  | [] => ([], [])
  | (radioType, estimator) :: rest =>
      let (estimator', pushed) :=
        visit this radioType estimator (clock i) in
      let (rest', more) := visit_all this rest clock (S i) in
      ((radioType, estimator') :: rest', pushed ++ more)
  end.

(** The body of [for (const est of estimates)] on
    [(totalWeight, weightedDistance, maxConfidence)]. *)
Definition accumulate (acc : R * R * R) (est : Source) : R * R * R :=
  let '(totalWeight, weightedDistance, maxConfidence) := acc in
  let effectiveWeight := weight est * confidence est in
  (totalWeight + effectiveWeight,
   weightedDistance + distance est * effectiveWeight,
   Math_max maxConfidence (confidence est)).

(** The two object literals [getFusedEstimate] returns.
    [NoEstimates c n e] is
    [{ distance: null, confidence: c, sources: n, error: e }] and
    [Fused d c n b] is
    [{ distance: d, confidence: c, sources: n, breakdown: b }], where
    [d] is a number or [null]. *)
Inductive FusedEstimate : Type :=
| NoEstimates (confidence : R) (sources : nat) (error : string)
| Fused (distance : JsProp R) (confidence : R) (sources : nat)
        (breakdown : list Source).

Definition fused_confidence (f : FusedEstimate) : R :=
  match f with
  | NoEstimates c _ _ => c
  | Fused _ c _ _ => c
  end.

Definition fused_sources (f : FusedEstimate) : nat :=
  match f with
  | NoEstimates _ n _ => n
  | Fused _ _ n _ => n
  end.

Definition fused_breakdown (f : FusedEstimate) : JsProp (list Source) :=
  match f with
  | NoEstimates _ _ _ => Absent
  | Fused _ _ _ b => Value b
  end.

(** [getFusedEstimate ()] *)
Definition getFusedEstimate (this : state) (clock : nat -> Z)
  : state * FusedEstimate :=
  let (entries', estimates) :=
    visit_all this (estimators this) clock 0 in
  let this' := mk entries' (fusionWeights this) in
  if (length estimates =? 0)%nat
  then (this', NoEstimates 0 0 "No valid estimates available")
  else
    let '(totalWeight, weightedDistance, maxConfidence) :=
      fold_left accumulate estimates (0, 0, 0) in
    let fusedDistance :=
      if ltb 0 totalWeight then Some (weightedDistance / totalWeight)
      else None in
    (this',
     Fused
       match fusedDistance with
       | Some d =>
           if Req_dec_T d 0 then Null
           else Value (Math_round (d * 100) / 100)
       | None => Null
       end
       (Math_round (((maxConfidence * INR (length estimates)) / 3) * 100)
        / 100)
       (length estimates)
       estimates).

(** [reset ()] *)
Definition reset (this : state) : state :=
  mk (map (fun entry => (fst entry, DistanceEstimator.reset (snd entry)))
          (estimators this))
     (fusionWeights this).

(** The calls of the class and the states they reach from a new
    instance. *)
Inductive call : Type :=
| CallAddReading (radioType : string) (rssi : R) (now : Z)
| CallGetFusedEstimate (clock : nat -> Z)
| CallReset.

Definition perform (this : state) (c : call) : state :=
  match c with
  | CallAddReading radioType rssi now =>
      fst (addReading this radioType rssi now)
  | CallGetFusedEstimate clock => fst (getFusedEstimate this clock)
  | CallReset => reset this
  end.

Inductive reachable : state -> Prop :=
| reachable_new : reachable new
| reachable_call this c : reachable this -> reachable (perform this c).

End MultiRadioEstimator.

(** ** class RFParty (src/src/rfparty.js): the device-info panel *)

Module RFParty.

(** [this.distanceEstimator = new DistanceEstimator ("BLE")], set by the
    constructor and used by [updateRssiDisplay] alone. *)
Definition distanceEstimator : DistanceEstimator.state :=
  DistanceEstimator.new "BLE" None.

(** [getRssiStrengthClass (rssi)] *)
Definition getRssiStrengthClass (rssi : R) : string :=
  if leb (-50) rssi then "strong"
  else if leb (-70) rssi then "medium"
  else "weak".

(** What [updateRssiDisplay] writes into the panel.  A text is kept as the
    value the template interpolates: [Dashes] is ["--"], [RssiNumber r] is
    the number [r]; [NoDistance] is the empty string and [Approximately d]
    is the text made of the approximation sign, [d] and the letter m;
    [NoNote] is the empty string, [BasedOnSignal] the note "Estimate based
    on BLE signal strength" and [WeakSignal] the warning "Weak signal -
    estimate may be inaccurate". *)
Inductive RssiText : Type :=
| Dashes
| RssiNumber (rssi : R).

Inductive DistanceText : Type :=
| NoDistance
| Approximately (distance : R).

Inductive Note : Type :=
| NoNote
| BasedOnSignal
| WeakSignal.

Record Panel : Type := mkPanel {
  bestRssiText : RssiText;
  bestRssiClassName : string;
  bestDistText : DistanceText;
  worstRssiText : RssiText;
  worstRssiClassName : string;
  worstDistText : DistanceText;
  confidenceNote : Note
}.

(** [estimate.distance !== null ? approx : ""] *)
Definition distance_text (estimate : DistanceEstimator.DistanceEstimate)
  : DistanceText :=
  match DistanceEstimator.distance_of estimate with
  | Value d => Approximately d
  | _ => NoDistance
  end.

(** [bestEstimate.reliable ? note : warning]; a missing [reliable] is
    falsy. *)
Definition reliability_note (estimate : DistanceEstimator.DistanceEstimate)
  : Note :=
  match DistanceEstimator.reliable_of estimate with
  | Value true => BasedOnSignal
  | _ => WeakSignal
  end.

(** [updateRssiDisplay (station)] on the estimator: [bestRssi] and
    [worstRssi] are [reach (station, "data.best.rssi")] and
    [reach (station, "data.worst.rssi")], [Some] when
    [typeof ... === "number"].  The three blocks of the method read the
    clock [clock 0], [clock 1] and [clock 2]. *)
Definition updateRssiDisplay (estimator : DistanceEstimator.state)
                             (bestRssi worstRssi : option R)
                             (clock : nat -> Z)
  : DistanceEstimator.state * Panel :=
  let '(estimator1, bestText, bestClass, bestDist) :=
    match bestRssi with
    | Some rssi =>
        let (e, bestEstimate) :=
          DistanceEstimator.estimateDistance estimator rssi false
                                             (clock 0%nat) in
        (e, RssiNumber rssi,
         String.append "rssi-value " (getRssiStrengthClass rssi),
         distance_text bestEstimate)
    | None => (estimator, Dashes, "rssi-value"%string, NoDistance)
    end in
  let '(estimator2, worstText, worstClass, worstDist) :=
    match worstRssi with
    | Some rssi =>
        let (e, worstEstimate) :=
          DistanceEstimator.estimateDistance estimator1 rssi false
                                             (clock 1%nat) in
        (e, RssiNumber rssi,
         String.append "rssi-value " (getRssiStrengthClass rssi),
         distance_text worstEstimate)
    | None => (estimator1, Dashes, "rssi-value"%string, NoDistance)
    end in
  let '(estimator3, note) :=
    match bestRssi with
    | Some rssi =>
        let (e, bestEstimate) :=
          DistanceEstimator.estimateDistance estimator2 rssi false
                                             (clock 2%nat) in
        (e, reliability_note bestEstimate)
    | None => (estimator2, NoNote)
    end in
  (estimator3,
   mkPanel bestText bestClass bestDist worstText worstClass worstDist note).

(** The estimator of the panel after any number of refreshes. *)
Inductive reachable : DistanceEstimator.state -> Prop :=
| reachable_new : reachable distanceEstimator
| reachable_refresh estimator bestRssi worstRssi clock :
    reachable estimator ->
    reachable (fst (updateRssiDisplay estimator bestRssi worstRssi clock)).

End RFParty.

(** ** Vocabulary of the statements *)

(** The error covariance after [n] updates, from the constants and the
    initial error alone. *)
Fixpoint covariance_after (Q Rn P : R) (n : nat) : R :=
  match n with
  | O => P
  | S k =>
      let predictedError := P + Q in
      let kalmanGain := predictedError / (predictedError + Rn) in
      covariance_after Q Rn ((1 - kalmanGain) * predictedError) k
  end.

(** The last [k] elements of a list, in order. *)
Definition lastn {A : Type} (k : nat) (l : list A) : list A :=
  skipn (length l - k) l.

(** The readings [DistanceEstimator.feed_from] pushes for [samples]: the
    n-th carries the timestamp [clock n]. *)
Fixpoint stamped (samples : list R) (clock : nat -> Z) (n : nat)
  : list DistanceEstimator.Reading :=
  match samples with
  | [] => []
  | rssi :: rest =>
      DistanceEstimator.mkReading rssi (clock n) :: stamped rest clock (S n)
  end.

(** A custom model whose reference distance is not 1 m. *)
Definition ten_metre_model : SignalModel :=
  mkSignalModel "custom" (-70) 10 2 (-100) (-20) 100.

Definition five_at_minus_50 : list R := [-50; -50; -50; -50; -50].

(** The constraints of the data model on a signal model: a positive
    path-loss exponent and a positive reference distance. *)
Definition well_formed_model (m : SignalModel) : Prop :=
  0 < pathLossExponent m /\ 0 < referenceDistance m.

(** A filter with the constants of the constructor's defaults whose error
    covariance is [p] and whose distance to the measurement [m] is the
    fraction [c] of the distance of the initial estimate [E0] to [m]. *)
Definition tracks (f : KalmanFilter.state) (m E0 p c : R) : Prop :=
  KalmanFilter.noiseQ f = 0.125
  /\ KalmanFilter.noiseR f = 4
  /\ KalmanFilter.errorCovariance f = p
  /\ KalmanFilter.estimate f - m = c * (E0 - m).

(** A filter constructed with the default noise constants and the initial
    estimate [E0], after [n] updates with the same measurement [m]. *)
Definition fed_constant (E0 m : R) (n : nat) : KalmanFilter.state :=
  KalmanFilter.feed (KalmanFilter.new 0.125 4 E0 1) (repeat m n).

(** What the constructor fixes and every method keeps. *)
Definition estimator_invariant (this : DistanceEstimator.state) : Prop :=
  DistanceEstimator.maxHistoryLength this = 50%nat
  /\ (length (DistanceEstimator.rawHistory this) <= 50)%nat
  /\ KalmanFilter.noiseQ (DistanceEstimator.kalmanFilter this) = 0.125
  /\ KalmanFilter.noiseR (DistanceEstimator.kalmanFilter this) = 4
  /\ 0 < KalmanFilter.errorCovariance (DistanceEstimator.kalmanFilter this).

(** What holds of every estimator a [MultiRadioEstimator] owns: the
    estimator invariant, and a model with a positive reliable distance
    (the estimators are constructed from the built-in table). *)
Definition owned_invariant (e : DistanceEstimator.state) : Prop :=
  estimator_invariant e
  /\ 0 < maxReliableDistance (DistanceEstimator.model e).

Definition multi_invariant (this : MultiRadioEstimator.state) : Prop :=
  Forall (fun entry => owned_invariant (snd entry))
         (MultiRadioEstimator.estimators this).

(** An estimator with model [m] that has only ever seen its reference
    RSSI: the filter estimate sits on it, the error covariance is [p] and
    the history holds [k] readings, all equal to it. *)
Definition settled (e : DistanceEstimator.state) (m : SignalModel)
                   (k : nat) (p : R) : Prop :=
  DistanceEstimator.model e = m
  /\ DistanceEstimator.maxHistoryLength e = 50%nat
  /\ KalmanFilter.noiseQ (DistanceEstimator.kalmanFilter e) = 0.125
  /\ KalmanFilter.noiseR (DistanceEstimator.kalmanFilter e) = 4
  /\ KalmanFilter.estimate (DistanceEstimator.kalmanFilter e)
     = referenceRssi m
  /\ KalmanFilter.errorCovariance (DistanceEstimator.kalmanFilter e) = p
  /\ length (DistanceEstimator.rawHistory e) = k
  /\ Forall (fun r => DistanceEstimator.rssi r = referenceRssi m)
            (DistanceEstimator.rawHistory e).

(** What the four built-in models share: an integer reference RSSI [z]
    inside the valid range, a reference distance of 1 m and a reliable
    distance of at least 30 m. *)
Definition reference_model (m : SignalModel) (z : Z) : Prop :=
  referenceRssi m = IZR z
  /\ referenceDistance m = 1
  /\ DistanceEstimator.in_range m (IZR z)
  /\ 30 <= maxReliableDistance m.

(** A fusion estimator after two readings per built-in radio type, each
    at the reference RSSI of its model. *)
Definition two_readings_each : MultiRadioEstimator.state :=
  fold_left MultiRadioEstimator.perform
    [MultiRadioEstimator.CallAddReading "BLE" (-59) 1;
     MultiRadioEstimator.CallAddReading "BLE" (-59) 2;
     MultiRadioEstimator.CallAddReading "WIFI_2G" (-40) 3;
     MultiRadioEstimator.CallAddReading "WIFI_2G" (-40) 4;
     MultiRadioEstimator.CallAddReading "WIFI_5G" (-42) 5;
     MultiRadioEstimator.CallAddReading "WIFI_5G" (-42) 6;
     MultiRadioEstimator.CallAddReading "LORA" (-30) 7;
     MultiRadioEstimator.CallAddReading "LORA" (-30) 8]
    MultiRadioEstimator.new.

(** A fusion estimator after a single BLE reading at -59. *)
Definition one_BLE_reading : MultiRadioEstimator.state :=
  MultiRadioEstimator.perform
    MultiRadioEstimator.new (MultiRadioEstimator.CallAddReading "BLE" (-59) 1).

(** What the error covariance of a reachable estimator satisfies: at most
    the initial error 1 and not below the fixed point of the covariance
    recursion, the positive root of [P * P + P / 8 - 1 / 2]. *)
Definition covariance_invariant (f : KalmanFilter.state) : Prop :=
  KalmanFilter.noiseQ f = 0.125
  /\ KalmanFilter.noiseR f = 4
  /\ 0 < KalmanFilter.errorCovariance f <= 1
  /\ 0 <= KalmanFilter.errorCovariance f * KalmanFilter.errorCovariance f
          + KalmanFilter.errorCovariance f / 8 - 1 / 2.

(** Every reading of the history lies in the valid range of the model. *)
Definition history_in_range (e : DistanceEstimator.state) : Prop :=
  Forall (fun r => DistanceEstimator.in_range (DistanceEstimator.model e)
                                              (DistanceEstimator.rssi r))
         (DistanceEstimator.rawHistory e).




(** * Properties *)

(** ** Comparisons and rounding *)

Lemma ltb_true (a b : R) : a < b -> ltb a b = true.
Proof. intro H. unfold ltb. destruct (Rlt_dec a b); [reflexivity | lra]. Qed.

Lemma ltb_false (a b : R) : b <= a -> ltb a b = false.
Proof. intro H. unfold ltb. destruct (Rlt_dec a b); [lra | reflexivity]. Qed.

Lemma leb_true (a b : R) : a <= b -> leb a b = true.
Proof. intro H. unfold leb. destruct (Rle_dec a b); [reflexivity | lra]. Qed.

Lemma leb_false (a b : R) : b < a -> leb a b = false.
Proof. intro H. unfold leb. destruct (Rle_dec a b); [lra | reflexivity]. Qed.

Lemma in_range_passes (m : SignalModel) (rssi : R) :
  DistanceEstimator.in_range m rssi ->
  ltb rssi (minRssi m) || ltb (maxRssi m) rssi = false.
Proof.
  intros [Hlo Hhi].
  rewrite (ltb_false _ _ Hlo), (ltb_false _ _ Hhi). reflexivity.
Qed.

Lemma out_of_range_fails (m : SignalModel) (rssi : R) :
  rssi < minRssi m \/ maxRssi m < rssi ->
  ltb rssi (minRssi m) || ltb (maxRssi m) rssi = true.
Proof.
  intros [H | H]; rewrite (ltb_true _ _ H); [reflexivity | apply orb_true_r].
Qed.

Lemma Math_round_eq (z : Z) (x : R) :
  IZR z - / 2 <= x < IZR z + / 2 -> Math_round x = IZR z.
Proof.
  intro H. unfold Math_round. f_equal. apply Zfloor_eq. lra.
Qed.

Lemma Math_round_IZR (z : Z) : Math_round (IZR z) = IZR z.
Proof. apply Math_round_eq. lra. Qed.

Lemma Math_round_le (x y : R) : x <= y -> Math_round x <= Math_round y.
Proof.
  intro H. unfold Math_round. apply IZR_le, Zfloor_le. lra.
Qed.

Lemma Math_round_nonneg (x : R) : 0 <= x -> 0 <= Math_round x.
Proof.
  intro H. rewrite <- (Math_round_IZR 0). now apply Math_round_le.
Qed.

(** ** KalmanFilter.update *)

(** C2.  One call of [update m] on a filter with estimate [E], error
    covariance [P] and constants [Q], [R] leaves the constants alone, sets
    the estimate to [E + K * (m - E)] and the error covariance to
    [(1 - K) * (P + Q)], where [K = (P + Q) / (P + Q + R)], increments
    [sampleCount] and returns the new estimate. *)
Theorem update_predict_correct (this : KalmanFilter.state) (m : R) :
  let E := KalmanFilter.estimate this in
  let P := KalmanFilter.errorCovariance this in
  let Q := KalmanFilter.noiseQ this in
  let Rn := KalmanFilter.noiseR this in
  let predictedError := P + Q in
  let kalmanGain := predictedError / (predictedError + Rn) in
  let this' := fst (KalmanFilter.update this m) in
  KalmanFilter.estimate this' = E + kalmanGain * (m - E)
  /\ KalmanFilter.errorCovariance this' = (1 - kalmanGain) * predictedError
  /\ KalmanFilter.sampleCount this' = S (KalmanFilter.sampleCount this)
  /\ KalmanFilter.noiseQ this' = Q
  /\ KalmanFilter.noiseR this' = Rn
  /\ snd (KalmanFilter.update this m) = KalmanFilter.estimate this'.
Proof.
  destruct this as [q r e p n]. cbn. repeat split.
Qed.

(** ** The error covariance does not see the measurements *)

Lemma feed_cons (this : KalmanFilter.state) (m : R) (rest : list R) :
  KalmanFilter.feed this (m :: rest)
  = KalmanFilter.feed (fst (KalmanFilter.update this m)) rest.
Proof. reflexivity. Qed.

Lemma feed_app (this : KalmanFilter.state) (l1 l2 : list R) :
  KalmanFilter.feed this (l1 ++ l2)
  = KalmanFilter.feed (KalmanFilter.feed this l1) l2.
Proof. unfold KalmanFilter.feed. apply fold_left_app. Qed.

Lemma feed_constants (measurements : list R) :
  forall this,
    KalmanFilter.noiseQ (KalmanFilter.feed this measurements)
    = KalmanFilter.noiseQ this
    /\ KalmanFilter.noiseR (KalmanFilter.feed this measurements)
       = KalmanFilter.noiseR this
    /\ KalmanFilter.sampleCount (KalmanFilter.feed this measurements)
       = (KalmanFilter.sampleCount this + length measurements)%nat.
Proof.
  induction measurements as [| m rest IH]; intro this.
  - cbn. repeat split. lia.
  - rewrite feed_cons. destruct (IH (fst (KalmanFilter.update this m)))
      as (HQ & HR & HN).
    rewrite HQ, HR, HN. cbn. repeat split. lia.
Qed.

Lemma feed_covariance (measurements : list R) :
  forall this,
    KalmanFilter.errorCovariance (KalmanFilter.feed this measurements)
    = covariance_after (KalmanFilter.noiseQ this) (KalmanFilter.noiseR this)
                       (KalmanFilter.errorCovariance this)
                       (length measurements).
Proof.
  induction measurements as [| m rest IH]; intro this.
  - reflexivity.
  - rewrite feed_cons, IH. reflexivity.
Qed.

(** C10.  Two filters with the same constants and the same error
    covariance, fed two measurement sequences of the same length, end with
    the same error covariance and the same [getConfidence ()], whatever
    the measured values; the covariance is the function
    [covariance_after] of the constants, the initial error and the number
    of updates. *)
Theorem covariance_ignores_measurements
  (f1 f2 : KalmanFilter.state) (l1 l2 : list R) :
  KalmanFilter.noiseQ f1 = KalmanFilter.noiseQ f2 ->
  KalmanFilter.noiseR f1 = KalmanFilter.noiseR f2 ->
  KalmanFilter.errorCovariance f1 = KalmanFilter.errorCovariance f2 ->
  length l1 = length l2 ->
  KalmanFilter.errorCovariance (KalmanFilter.feed f1 l1)
  = covariance_after (KalmanFilter.noiseQ f1) (KalmanFilter.noiseR f1)
                     (KalmanFilter.errorCovariance f1) (length l1)
  /\ KalmanFilter.errorCovariance (KalmanFilter.feed f1 l1)
     = KalmanFilter.errorCovariance (KalmanFilter.feed f2 l2)
  /\ KalmanFilter.getConfidence (KalmanFilter.feed f1 l1)
     = KalmanFilter.getConfidence (KalmanFilter.feed f2 l2).
Proof.
  intros HQ HR HP Hlen.
  assert (Hcov : KalmanFilter.errorCovariance (KalmanFilter.feed f1 l1)
                 = KalmanFilter.errorCovariance (KalmanFilter.feed f2 l2)).
  { rewrite !feed_covariance. congruence. }
  split; [apply feed_covariance |]. split; [exact Hcov |].
  unfold KalmanFilter.getConfidence. now rewrite Hcov.
Qed.

Lemma covariance_ignores_measurements_witness :
  KalmanFilter.errorCovariance
    (KalmanFilter.feed KalmanFilter.default [-55; -70; -41])
  = KalmanFilter.errorCovariance
      (KalmanFilter.feed (KalmanFilter.new 0.125 4 (-30) 1) [-90; -20; -63]).
Proof.
  apply (covariance_ignores_measurements
           KalmanFilter.default (KalmanFilter.new 0.125 4 (-30) 1)
           [-55; -70; -41] [-90; -20; -63]); reflexivity.
Defined.

(** ** What every reachable estimator satisfies *)

Lemma update_covariance_pos (this : KalmanFilter.state) (m : R) :
  0 < KalmanFilter.noiseQ this -> 0 < KalmanFilter.noiseR this ->
  0 <= KalmanFilter.errorCovariance this ->
  0 < KalmanFilter.errorCovariance (fst (KalmanFilter.update this m)).
Proof.
  intros HQ HR HP. cbn.
  set (pe := KalmanFilter.errorCovariance this + KalmanFilter.noiseQ this).
  set (r := KalmanFilter.noiseR this) in *.
  assert (Hpe : 0 < pe) by (unfold pe; lra).
  assert (Hgain : 1 - pe / (pe + r) = r / (pe + r)) by (field; lra).
  rewrite Hgain. apply Rmult_lt_0_compat; [| exact Hpe].
  apply Rdiv_lt_0_compat; lra.
Qed.

Lemma record_length (this : DistanceEstimator.state) (rssi : R) (now : Z) :
  DistanceEstimator.maxHistoryLength this = 50%nat ->
  (length (DistanceEstimator.rawHistory this) <= 50)%nat ->
  length (DistanceEstimator.record this rssi now)
  = Nat.min (S (length (DistanceEstimator.rawHistory this))) 50.
Proof.
  intros Hmax Hlen. unfold DistanceEstimator.record. rewrite Hmax.
  rewrite length_app. cbn [length].
  destruct (Nat.ltb_spec 50 (length (DistanceEstimator.rawHistory this) + 1))
    as [Hfull | Hroom].
  - destruct (DistanceEstimator.rawHistory this) as [| r h]; cbn in *;
      [lia |]. rewrite length_app. cbn. lia.
  - rewrite length_app. cbn. lia.
Qed.

Lemma estimateDistance_accepts
  (this : DistanceEstimator.state) (rssi : R) (useFilter : bool) (now : Z) :
  DistanceEstimator.in_range (DistanceEstimator.model this) rssi ->
  let this' := fst (DistanceEstimator.estimateDistance this rssi useFilter now)
  in
  DistanceEstimator.model this' = DistanceEstimator.model this
  /\ DistanceEstimator.maxHistoryLength this'
     = DistanceEstimator.maxHistoryLength this
  /\ DistanceEstimator.rawHistory this'
     = DistanceEstimator.record this rssi now
  /\ DistanceEstimator.kalmanFilter this'
     = if useFilter
       then fst (KalmanFilter.update (DistanceEstimator.kalmanFilter this)
                                     rssi)
       else DistanceEstimator.kalmanFilter this.
Proof.
  intro Hin. unfold DistanceEstimator.estimateDistance.
  rewrite (in_range_passes _ _ Hin).
  destruct useFilter; cbn; repeat split.
Qed.

Lemma estimateDistance_keeps_invariant
  (this : DistanceEstimator.state) (rssi : R) (useFilter : bool) (now : Z) :
  estimator_invariant this ->
  estimator_invariant
    (fst (DistanceEstimator.estimateDistance this rssi useFilter now)).
Proof.
  intros (Hmax & Hlen & HQ & HR & HP).
  destruct (Rlt_dec rssi (minRssi (DistanceEstimator.model this)))
    as [Hlo | Hlo];
    [| destruct (Rlt_dec (maxRssi (DistanceEstimator.model this)) rssi)
        as [Hhi | Hhi]].
  1, 2: unfold DistanceEstimator.estimateDistance;
        rewrite out_of_range_fails by (auto; lra);
        cbn; repeat split; assumption.
  assert (Hin : DistanceEstimator.in_range (DistanceEstimator.model this)
                                           rssi)
    by (unfold DistanceEstimator.in_range; lra).
  destruct (estimateDistance_accepts this rssi useFilter now Hin)
    as (_ & Hmax' & Hhist & Hfilter).
  unfold estimator_invariant. rewrite Hmax', Hhist, Hfilter.
  split; [exact Hmax |]. split.
  - rewrite record_length by assumption. lia.
  - destruct useFilter; [| repeat split; assumption].
    split; [exact HQ |]. split; [exact HR |].
    apply update_covariance_pos; lra.
Qed.

Lemma reachable_invariant (this : DistanceEstimator.state) :
  DistanceEstimator.reachable this -> estimator_invariant this.
Proof.
  induction 1 as [radioType customModel | this c Hreach IH].
  - unfold estimator_invariant. cbn. repeat split; try lia; lra.
  - destruct c as [rssi useFilter now | updates | knownDistance samples |].
    + now apply estimateDistance_keeps_invariant.
    + exact IH.
    + destruct IH as (Hmax & Hlen & HQ & HR & HP).
      unfold estimator_invariant, DistanceEstimator.perform,
        DistanceEstimator.calibrate.
      destruct (length samples <? 5)%nat; cbn; repeat split;
        try assumption; lra.
    + destruct IH as (Hmax & Hlen & HQ & HR & HP).
      unfold estimator_invariant. cbn. repeat split;
        try assumption; try lia; lra.
Qed.

(** ** Rejected measurements *)

(** C1.  An RSSI below [minRssi] or above [maxRssi] gets the object
    [{ distance: null, confidence: 0, filteredRssi: rssi, rawRssi: rssi,
       error: "RSSI out of valid range" }], and the estimator is the same
    afterwards: same history, same [getStats ().samples], same filter
    estimate, error covariance and sample count. *)
Theorem estimateDistance_out_of_range
  (this : DistanceEstimator.state) (rssi : R) (useFilter : bool) (now : Z) :
  rssi < minRssi (DistanceEstimator.model this)
  \/ maxRssi (DistanceEstimator.model this) < rssi ->
  let result :=
    snd (DistanceEstimator.estimateDistance this rssi useFilter now) in
  let this' :=
    fst (DistanceEstimator.estimateDistance this rssi useFilter now) in
  result
  = DistanceEstimator.OutOfRange 0 rssi rssi "RSSI out of valid range"
  /\ DistanceEstimator.distance_of result = Null
  /\ this' = this
  /\ DistanceEstimator.rawHistory this' = DistanceEstimator.rawHistory this
  /\ DistanceEstimator.samples_of (DistanceEstimator.getStats this')
     = DistanceEstimator.samples_of (DistanceEstimator.getStats this)
  /\ KalmanFilter.estimate (DistanceEstimator.kalmanFilter this')
     = KalmanFilter.estimate (DistanceEstimator.kalmanFilter this)
  /\ KalmanFilter.errorCovariance (DistanceEstimator.kalmanFilter this')
     = KalmanFilter.errorCovariance (DistanceEstimator.kalmanFilter this)
  /\ KalmanFilter.sampleCount (DistanceEstimator.kalmanFilter this')
     = KalmanFilter.sampleCount (DistanceEstimator.kalmanFilter this).
Proof.
  intro Hout. unfold DistanceEstimator.estimateDistance.
  rewrite (out_of_range_fails _ _ Hout). cbn. repeat split.
Qed.

Lemma estimateDistance_out_of_range_witness :
  snd (DistanceEstimator.estimateDistance
         (DistanceEstimator.new "BLE" None) (-101) true 0%Z)
  = DistanceEstimator.OutOfRange 0 (-101) (-101) "RSSI out of valid range".
Proof.
  apply (estimateDistance_out_of_range
           (DistanceEstimator.new "BLE" None) (-101) true 0%Z).
  left. cbn. lra.
Defined.

(** ** The reading history *)

Lemma lastn_all {A : Type} (k : nat) (l : list A) :
  (length l <= k)%nat -> lastn k l = l.
Proof.
  intro H. unfold lastn. replace (length l - k)%nat with 0%nat by lia.
  reflexivity.
Qed.

Lemma lastn_cons {A : Type} (k : nat) (a : A) (l : list A) :
  (k <= length l)%nat -> lastn k (a :: l) = lastn k l.
Proof.
  intro H. unfold lastn. cbn [length].
  replace (S (length l) - k)%nat with (S (length l - k)) by lia.
  reflexivity.
Qed.

Lemma lastn_length {A : Type} (k : nat) (l : list A) :
  length (lastn k l) = Nat.min k (length l).
Proof. unfold lastn. rewrite length_skipn. lia. Qed.

Lemma lastn_app_r {A : Type} (k : nat) (l1 l2 : list A) :
  (k <= length l2)%nat -> lastn k (l1 ++ l2) = lastn k l2.
Proof.
  intro H. induction l1 as [| a l1 IH]; [reflexivity |].
  cbn [app]. rewrite lastn_cons; [exact IH |]. rewrite length_app. lia.
Qed.

(** Pushing on a window of the last 50 and trimming is the window of the
    last 50 of the longer log. *)
Lemma record_lastn (this : DistanceEstimator.state) (rssi : R) (now : Z) :
  DistanceEstimator.maxHistoryLength this = 50%nat ->
  (length (DistanceEstimator.rawHistory this) <= 50)%nat ->
  DistanceEstimator.record this rssi now
  = lastn 50 (DistanceEstimator.rawHistory this
              ++ [DistanceEstimator.mkReading rssi now]).
Proof.
  intros Hmax Hlen. unfold DistanceEstimator.record. rewrite Hmax.
  rewrite length_app. cbn [length].
  destruct (Nat.ltb_spec 50 (length (DistanceEstimator.rawHistory this) + 1))
    as [Hfull | Hroom].
  - destruct (DistanceEstimator.rawHistory this) as [| r h]; cbn in Hlen, Hfull;
      [lia |].
    cbn [app tl]. rewrite lastn_cons by (rewrite length_app; cbn; lia).
    symmetry. apply lastn_all. rewrite length_app. cbn. lia.
  - symmetry. apply lastn_all. rewrite length_app. cbn. lia.
Qed.

Lemma lastn_lastn_app {A : Type} (l1 l2 : list A) :
  lastn 50 (lastn 50 l1 ++ l2) = lastn 50 (l1 ++ l2).
Proof.
  destruct (Nat.le_gt_cases (length l1) 50) as [Hshort | Hlong].
  - now rewrite (lastn_all 50 l1 Hshort).
  - unfold lastn at 2.
    rewrite <- (firstn_skipn (length l1 - 50) l1) at 3.
    rewrite <- app_assoc.
    set (tail := skipn (length l1 - 50) l1 ++ l2).
    assert (Htail : (50 <= length tail)%nat).
    { unfold tail. rewrite length_app, length_skipn. lia. }
    now rewrite lastn_app_r.
Qed.

Lemma feed_from_history (samples : list R) :
  forall (this : DistanceEstimator.state) (clock : nat -> Z) (n : nat),
    DistanceEstimator.maxHistoryLength this = 50%nat ->
    (length (DistanceEstimator.rawHistory this) <= 50)%nat ->
    Forall (DistanceEstimator.in_range (DistanceEstimator.model this))
           samples ->
    DistanceEstimator.rawHistory
      (DistanceEstimator.feed_from this samples clock n)
    = lastn 50 (DistanceEstimator.rawHistory this ++ stamped samples clock n).
Proof.
  induction samples as [| rssi rest IH]; intros this clock n Hmax Hlen Hall.
  - cbn. rewrite app_nil_r. symmetry. now apply lastn_all.
  - inversion Hall as [| x l Hin Hrest]; subst.
    destruct (estimateDistance_accepts this rssi true (clock n) Hin)
      as (Hmodel & Hmax' & Hhist & _).
    cbn [DistanceEstimator.feed_from stamped].
    rewrite IH.
    + rewrite Hhist, record_lastn by assumption.
      rewrite lastn_lastn_app, <- app_assoc. reflexivity.
    + now rewrite Hmax'.
    + rewrite Hhist, record_length by assumption. lia.
    + now rewrite Hmodel.
Qed.

Lemma stamped_length (samples : list R) :
  forall clock n, length (stamped samples clock n) = length samples.
Proof.
  induction samples as [| r rest IH]; intros clock n; cbn;
    [reflexivity | now rewrite IH].
Qed.

Lemma stamped_rssi (samples : list R) :
  forall clock n,
    map DistanceEstimator.rssi (stamped samples clock n) = samples.
Proof.
  induction samples as [| r rest IH]; intros clock n; cbn;
    [reflexivity | now rewrite IH].
Qed.

Lemma getStats_samples (this : DistanceEstimator.state) :
  DistanceEstimator.samples_of (DistanceEstimator.getStats this)
  = length (DistanceEstimator.rawHistory this).
Proof.
  unfold DistanceEstimator.getStats.
  destruct (DistanceEstimator.rawHistory this) as [| r h]; cbn;
    [reflexivity | now rewrite length_map].
Qed.

(** C5.  The history of a reachable estimator holds at most 50 readings;
    an accepted reading pushed on a full history drops the oldest one and
    goes last; and 60 in-range samples fed to a new estimator leave
    [getStats ().samples = 50] and, as history, the last 50 readings in
    the order they were fed. *)
Theorem history_bounded_fifo :
  (forall this,
      DistanceEstimator.reachable this ->
      (length (DistanceEstimator.rawHistory this) <= 50)%nat)
  /\ (forall this rssi useFilter now,
         DistanceEstimator.reachable this ->
         DistanceEstimator.in_range (DistanceEstimator.model this) rssi ->
         length (DistanceEstimator.rawHistory this) = 50%nat ->
         DistanceEstimator.rawHistory
           (fst (DistanceEstimator.estimateDistance this rssi useFilter now))
         = tl (DistanceEstimator.rawHistory this)
           ++ [DistanceEstimator.mkReading rssi now])
  /\ (forall radioType customModel samples clock,
         length samples = 60%nat ->
         Forall (DistanceEstimator.in_range
                   (DistanceEstimator.model
                      (DistanceEstimator.new radioType customModel)))
                samples ->
         let this :=
           DistanceEstimator.feed
             (DistanceEstimator.new radioType customModel) samples clock in
         DistanceEstimator.samples_of (DistanceEstimator.getStats this)
         = 50%nat
         /\ DistanceEstimator.rawHistory this
            = skipn 10 (stamped samples clock 0)
         /\ map DistanceEstimator.rssi (DistanceEstimator.rawHistory this)
            = skipn 10 samples).
Proof.
  split; [| split].
  - intros this Hreach.
    now destruct (reachable_invariant this Hreach) as (_ & Hlen & _).
  - intros this rssi useFilter now Hreach Hin Hfull.
    destruct (reachable_invariant this Hreach) as (Hmax & Hlen & _).
    destruct (estimateDistance_accepts this rssi useFilter now Hin)
      as (_ & _ & Hhist & _).
    rewrite Hhist. unfold DistanceEstimator.record.
    rewrite Hmax, length_app, Hfull. cbn.
    destruct (DistanceEstimator.rawHistory this); [discriminate | reflexivity].
  - intros radioType customModel samples clock Hlen Hall this.
    assert (Hhist : DistanceEstimator.rawHistory this
                    = skipn 10 (stamped samples clock 0)).
    { unfold this, DistanceEstimator.feed.
      rewrite feed_from_history; [| reflexivity | cbn; lia | exact Hall].
      cbn [DistanceEstimator.new DistanceEstimator.rawHistory app].
      unfold lastn. now rewrite stamped_length, Hlen. }
    split; [| split].
    + rewrite getStats_samples, Hhist, length_skipn, stamped_length, Hlen.
      reflexivity.
    + exact Hhist.
    + rewrite Hhist, <- skipn_map, stamped_rssi. reflexivity.
Qed.

Lemma history_bounded_fifo_witness :
  DistanceEstimator.samples_of
    (DistanceEstimator.getStats
       (DistanceEstimator.feed (DistanceEstimator.new "BLE" None)
                               (repeat (-59) 60) Z.of_nat))
  = 50%nat.
Proof.
  destruct history_bounded_fifo as (_ & _ & Hfeed).
  apply (Hfeed "BLE"%string None (repeat (-59) 60) Z.of_nat).
  - reflexivity.
  - apply Forall_forall. intros x Hx. apply repeat_spec in Hx. subst x.
    unfold DistanceEstimator.in_range. cbn. lra.
Defined.

(** ** Calibration *)

Lemma calibrate_enough
  (this : DistanceEstimator.state) (knownDistance : R) (samples : list R) :
  (5 <= length samples)%nat ->
  DistanceEstimator.calibrate this knownDistance samples
  = (DistanceEstimator.mk
       (DistanceEstimator.with_referenceRssi
          (DistanceEstimator.model this)
          (if ltb (Math_abs (knownDistance - 1.0)) 0.1
           then Math_round (sum samples / INR (length samples))
           else Math_round
                  (sum samples / INR (length samples)
                   + 10 * pathLossExponent (DistanceEstimator.model this)
                     * Math_log10 knownDistance)))
       (KalmanFilter.reset (DistanceEstimator.kalmanFilter this)
                           (sum samples / INR (length samples)))
       (DistanceEstimator.rawHistory this)
       (DistanceEstimator.maxHistoryLength this),
     true).
Proof.
  intro Hlen. unfold DistanceEstimator.calibrate.
  destruct (Nat.ltb_spec (length samples) 5); [lia | reflexivity].
Qed.

(** C3, as the code has it.  With at least 5 samples, [calibrate] sets
    [referenceRssi] to [round (mean)] when [|knownDistance - 1| < 0.1] (the
    constant 1 m, not the model's [referenceDistance]) and to
    [round (mean + 10 * pathLossExponent * log10 (knownDistance))]
    otherwise; in both cases the filter is reset to the sample mean (error
    covariance 1, sample count 0), the rest of the model and the history
    are kept, and the call returns [true]. *)
Theorem calibrate_reference_at_one_metre
  (this : DistanceEstimator.state) (knownDistance : R) (samples : list R) :
  (5 <= length samples)%nat ->
  let mean := sum samples / INR (length samples) in
  let this' := fst (DistanceEstimator.calibrate this knownDistance samples) in
  snd (DistanceEstimator.calibrate this knownDistance samples) = true
  /\ (Rabs (knownDistance - 1) < 0.1 ->
      referenceRssi (DistanceEstimator.model this') = Math_round mean)
  /\ (0.1 <= Rabs (knownDistance - 1) ->
      referenceRssi (DistanceEstimator.model this')
      = Math_round
          (mean + 10 * pathLossExponent (DistanceEstimator.model this)
                  * Math_log10 knownDistance))
  /\ KalmanFilter.estimate (DistanceEstimator.kalmanFilter this') = mean
  /\ KalmanFilter.errorCovariance (DistanceEstimator.kalmanFilter this') = 1
  /\ KalmanFilter.sampleCount (DistanceEstimator.kalmanFilter this') = 0%nat
  /\ DistanceEstimator.with_referenceRssi
       (DistanceEstimator.model this')
       (referenceRssi (DistanceEstimator.model this))
     = DistanceEstimator.model this
  /\ DistanceEstimator.rawHistory this' = DistanceEstimator.rawHistory this.
Proof.
  intros Hlen mean this'. unfold this'.
  rewrite (calibrate_enough this knownDistance samples Hlen).
  cbn [fst snd DistanceEstimator.model DistanceEstimator.kalmanFilter
       DistanceEstimator.rawHistory].
  replace (knownDistance - 1.0) with (knownDistance - 1) by lra.
  unfold Math_abs. fold mean.
  split; [reflexivity |]. split; [| split].
  - intro Hnear. now rewrite (ltb_true _ _ Hnear).
  - intro Hfar. now rewrite (ltb_false _ _ Hfar).
  - destruct (DistanceEstimator.model this). cbn. repeat split.
Qed.

Lemma sum_five (x : R) : sum [x; x; x; x; x] / INR 5 = x.
Proof. unfold sum. cbn. field. Qed.

Lemma calibrate_reference_at_one_metre_witness :
  referenceRssi
    (DistanceEstimator.model
       (fst (DistanceEstimator.calibrate
               (DistanceEstimator.new "BLE" None) 1
               [-50; -50; -50; -50; -50])))
  = -50.
Proof.
  destruct (calibrate_reference_at_one_metre
              (DistanceEstimator.new "BLE" None) 1
              [-50; -50; -50; -50; -50]) as (_ & Hnear & _).
  - cbn. lia.
  - rewrite Hnear.
    + change (length [-50; -50; -50; -50; -50]) with 5%nat.
      rewrite sum_five. apply (Math_round_IZR (-50)).
    + apply Rabs_def1; lra.
Defined.

Lemma log10_10 : Math_log10 10 = 1.
Proof.
  unfold Math_log10. field.
  assert (H : ln 1 < ln 10) by (apply ln_increasing; lra).
  rewrite ln_1 in H. lra.
Qed.

(** C3 fails as stated: for [ten_metre_model], whose [referenceDistance]
    is 10 m, calibrating at 10 m (at distance 0 from the reference
    distance) with five samples of -50 does not set [referenceRssi] to
    [round (mean)]; the code takes the other branch and stores -30. *)
Lemma calibrate_ignores_referenceDistance :
  (5 <= length five_at_minus_50)%nat
  /\ Rabs (10 - referenceDistance
                  (DistanceEstimator.model
                     (DistanceEstimator.new "BLE" (Some ten_metre_model))))
     < 0.1
  /\ referenceRssi
       (DistanceEstimator.model
          (fst (DistanceEstimator.calibrate
                  (DistanceEstimator.new "BLE" (Some ten_metre_model))
                  10 five_at_minus_50)))
     <> Math_round (sum five_at_minus_50 / INR (length five_at_minus_50)).
Proof.
  unfold five_at_minus_50.
  split; [cbn; lia |]. split.
  - apply Rabs_def1; cbn; lra.
  - rewrite calibrate_enough by (cbn; lia).
    cbn [fst DistanceEstimator.model DistanceEstimator.with_referenceRssi
         referenceRssi].
    change (length [-50; -50; -50; -50; -50]) with 5%nat.
    rewrite sum_five.
    rewrite ltb_false.
    + rewrite log10_10.
      change (pathLossExponent
                (DistanceEstimator.model
                   (DistanceEstimator.new "BLE" (Some ten_metre_model))))
        with 2.
      replace (-50 + 10 * 2 * 1) with (IZR (-30)) by lra.
      rewrite (Math_round_IZR (-30)), (Math_round_IZR (-50)). lra.
    + unfold Math_abs. replace (10 - 1.0) with 9 by lra.
      rewrite Rabs_pos_eq; lra.
Qed.

(** ** The object returned for an accepted measurement *)

Lemma estimateDistance_in_range
  (this : DistanceEstimator.state) (rssi : R) (useFilter : bool) (now : Z) :
  DistanceEstimator.in_range (DistanceEstimator.model this) rssi ->
  let filteredRssi :=
    if useFilter
    then snd (KalmanFilter.update (DistanceEstimator.kalmanFilter this) rssi)
    else rssi in
  let distance :=
    referenceDistance (DistanceEstimator.model this)
    * Math_pow 10 ((referenceRssi (DistanceEstimator.model this)
                    - filteredRssi)
                   / (10 * pathLossExponent (DistanceEstimator.model this)))
  in
  let this' :=
    fst (DistanceEstimator.estimateDistance this rssi useFilter now) in
  snd (DistanceEstimator.estimateDistance this rssi useFilter now)
  = DistanceEstimator.Estimated
      (Math_round (distance * 100) / 100)
      (DistanceEstimator.calculateConfidence this' filteredRssi distance)
      (Math_round (filteredRssi * 10) / 10)
      rssi
      (name (DistanceEstimator.model this))
      (leb distance (maxReliableDistance (DistanceEstimator.model this))).
Proof.
  intro Hin. unfold DistanceEstimator.estimateDistance.
  rewrite (in_range_passes _ _ Hin).
  destruct useFilter; reflexivity.
Qed.

(** C8, as the code has it.  The object returned for an in-range RSSI has
    no [error] property at all (reading it gives [undefined], not
    [null]); it carries [distance] (a number), [confidence],
    [filteredRssi], [rawRssi] (the argument), [model] (the model's name)
    and [reliable]. *)
Theorem estimateDistance_success_has_no_error
  (this : DistanceEstimator.state) (rssi : R) (useFilter : bool) (now : Z) :
  DistanceEstimator.in_range (DistanceEstimator.model this) rssi ->
  let result :=
    snd (DistanceEstimator.estimateDistance this rssi useFilter now) in
  DistanceEstimator.error_of result = Absent
  /\ (exists d, DistanceEstimator.distance_of result = Value d)
  /\ (exists c, DistanceEstimator.confidence_of result = Value c)
  /\ (exists f, DistanceEstimator.filteredRssi_of result = Value f)
  /\ DistanceEstimator.rawRssi_of result = Value rssi
  /\ DistanceEstimator.model_of result
     = Value (name (DistanceEstimator.model this))
  /\ (exists b, DistanceEstimator.reliable_of result = Value b).
Proof.
  intros Hin result. unfold result.
  rewrite (estimateDistance_in_range this rssi useFilter now Hin).
  cbn. repeat split; eexists; reflexivity.
Qed.

Lemma BLE_reference_in_range :
  DistanceEstimator.in_range
    (DistanceEstimator.model (DistanceEstimator.new "BLE" None)) (-59).
Proof. unfold DistanceEstimator.in_range. cbn. lra. Qed.

Lemma estimateDistance_success_has_no_error_witness :
  DistanceEstimator.error_of
    (snd (DistanceEstimator.estimateDistance
            (DistanceEstimator.new "BLE" None) (-59) true 0%Z))
  = Absent.
Proof.
  apply (estimateDistance_success_has_no_error
           (DistanceEstimator.new "BLE" None) (-59) true 0%Z).
  unfold DistanceEstimator.in_range. cbn. lra.
Defined.

(** C8 fails as stated: -59 is in the range of the BLE model, and the
    [error] property of the object returned for it is not [null]. *)
Lemma success_error_is_not_null :
  DistanceEstimator.in_range
    (DistanceEstimator.model (DistanceEstimator.new "BLE" None)) (-59)
  /\ DistanceEstimator.error_of
       (snd (DistanceEstimator.estimateDistance
               (DistanceEstimator.new "BLE" None) (-59) true 0%Z))
     <> Null.
Proof.
  split; [exact BLE_reference_in_range |].
  rewrite (estimateDistance_in_range _ _ _ _ BLE_reference_in_range).
  discriminate.
Qed.

(** ** Monotonicity of the distance in the RSSI *)





(** ** Convergence of the filter on a constant measurement *)

Lemma feed_repeat_S (f : KalmanFilter.state) (m : R) (n : nat) :
  KalmanFilter.feed f (repeat m (S n))
  = fst (KalmanFilter.update (KalmanFilter.feed f (repeat m n)) m).
Proof.
  change (repeat m (S n)) with (m :: repeat m n).
  rewrite repeat_cons, feed_app. reflexivity.
Qed.

Lemma tracks_step (f : KalmanFilter.state) (m E0 p c p' c' : R) :
  tracks f m E0 p c -> 0 < p ->
  p' = 4 * (p + 0.125) / (p + 4.125) ->
  c' = c * (4 / (p + 4.125)) ->
  tracks (fst (KalmanFilter.update f m)) m E0 p' c'.
Proof.
  intros (HQ & HR & HP & HE) Hpos -> ->.
  unfold tracks. cbn. rewrite HQ, HR, HP.
  replace 0.125 with (/ 8) by lra. replace 4.125 with (33 / 8) by lra.
  split; [reflexivity |]. split; [reflexivity |]. split; [field; lra |].
  replace (KalmanFilter.estimate f
           + (p + / 8) / (p + / 8 + 4) * (m - KalmanFilter.estimate f)
           - m)
    with (4 / (p + 33 / 8) * (KalmanFilter.estimate f - m)) by (field; lra).
  rewrite HE. ring.
Qed.

Lemma tracks_after_one (m E0 : R) :
  tracks (KalmanFilter.feed (KalmanFilter.new 0.125 4 E0 1) (repeat m 1))
         m E0 (36 / 41) (32 / 41).
Proof.
  assert (H0 : tracks (KalmanFilter.new 0.125 4 E0 1) m E0 1 1)
    by (unfold tracks; cbn; repeat split; lra).
  apply (tracks_step _ _ _ _ _ _ _ H0); lra.
Qed.

Lemma tracks_after_ten (m E0 : R) :
  tracks (KalmanFilter.feed (KalmanFilter.new 0.125 4 E0 1) (repeat m 10))
         m E0
         (5354748737015076 / 8166684832004201)
         (1125899906842624 / 8166684832004201).
Proof.
  pose proof (tracks_after_one m E0) as H1.
  assert (H2 : tracks (KalmanFilter.feed (KalmanFilter.new 0.125 4 E0 1)
                                         (repeat m 2))
                      m E0 (1316 / 1641) (1024 / 1641))
    by (rewrite feed_repeat_S; apply (tracks_step _ _ _ _ _ _ _ H1); lra).
  assert (H3 : tracks (KalmanFilter.feed (KalmanFilter.new 0.125 4 E0 1)
                                         (repeat m 3))
                      m E0 (48676 / 64681) (32768 / 64681))
    by (rewrite feed_repeat_S; apply (tracks_step _ _ _ _ _ _ _ H2); lra).
  assert (H4 : tracks (KalmanFilter.feed (KalmanFilter.new 0.125 4 E0 1)
                                         (repeat m 4))
                      m E0 (1816356 / 2523881) (1048576 / 2523881))
    by (rewrite feed_repeat_S; apply (tracks_step _ _ _ _ _ _ _ H3); lra).
  assert (H5 : tracks (KalmanFilter.feed (KalmanFilter.new 0.125 4 E0 1)
                                         (repeat m 5))
                      m E0 (68218916 / 97818921) (33554432 / 97818921))
    by (rewrite feed_repeat_S; apply (tracks_step _ _ _ _ _ _ _ H4); lra).
  assert (H6 : tracks (KalmanFilter.feed (KalmanFilter.new 0.125 4 E0 1)
                                         (repeat m 6))
                      m E0 (2574280996 / 3773775721)
                      (1073741824 / 3773775721))
    by (rewrite feed_repeat_S; apply (tracks_step _ _ _ _ _ _ _ H5); lra).
  assert (H7 : tracks (KalmanFilter.feed (KalmanFilter.new 0.125 4 E0 1)
                                         (repeat m 7))
                      m E0 (97472094756 / 145128846761)
                      (34359738368 / 145128846761))
    by (rewrite feed_repeat_S; apply (tracks_step _ _ _ _ _ _ _ H6); lra).
  assert (H8 : tracks (KalmanFilter.feed (KalmanFilter.new 0.125 4 E0 1)
                                         (repeat m 8))
                      m E0 (3699622419236 / 5569028701161)
                      (1099511627776 / 5569028701161))
    by (rewrite feed_repeat_S; apply (tracks_step _ _ _ _ _ _ _ H7); lra).
  assert (H9 : tracks (KalmanFilter.feed (KalmanFilter.new 0.125 4 E0 1)
                                         (repeat m 9))
                      m E0 (140664032220196 / 213374926492201)
                      (35184372088832 / 213374926492201))
    by (rewrite feed_repeat_S; apply (tracks_step _ _ _ _ _ _ _ H8); lra).
  rewrite feed_repeat_S. apply (tracks_step _ _ _ _ _ _ _ H9); lra.
Qed.

Lemma getConfidence_small (f : KalmanFilter.state) :
  0 <= KalmanFilter.errorCovariance f <= 10 ->
  KalmanFilter.getConfidence f = 1 - KalmanFilter.errorCovariance f / 10.
Proof.
  intros [Hlo Hhi]. unfold KalmanFilter.getConfidence, Math_max, Math_min.
  rewrite Rmin_left by lra. rewrite Rmax_right by lra. reflexivity.
Qed.

Lemma update_contracts (f : KalmanFilter.state) (m : R) :
  0 < KalmanFilter.noiseQ f -> 0 < KalmanFilter.noiseR f ->
  0 <= KalmanFilter.errorCovariance f ->
  Rabs (KalmanFilter.estimate (fst (KalmanFilter.update f m)) - m)
  <= Rabs (KalmanFilter.estimate f - m).
Proof.
  intros HQ HR HP. cbn.
  set (pe := KalmanFilter.errorCovariance f + KalmanFilter.noiseQ f).
  set (r := KalmanFilter.noiseR f) in *.
  set (E := KalmanFilter.estimate f).
  assert (Hpe : 0 < pe) by (unfold pe; lra).
  replace (E + pe / (pe + r) * (m - E) - m)
    with (r / (pe + r) * (E - m)) by (field; lra).
  assert (Hk : 0 < r / (pe + r) < 1).
  { split; [apply Rdiv_lt_0_compat; lra |].
    apply Rmult_lt_reg_r with (pe + r); [lra |].
    unfold Rdiv. rewrite Rmult_assoc, Rinv_l by lra. lra. }
  rewrite Rabs_mult, (Rabs_pos_eq (r / (pe + r))) by lra.
  pose proof (Rabs_pos (E - m)). nra.
Qed.

Lemma feed_repeat_contracts (m : R) (k : nat) :
  forall f,
    0 < KalmanFilter.noiseQ f -> 0 < KalmanFilter.noiseR f ->
    0 <= KalmanFilter.errorCovariance f ->
    Rabs (KalmanFilter.estimate (KalmanFilter.feed f (repeat m k)) - m)
    <= Rabs (KalmanFilter.estimate f - m).
Proof.
  induction k as [| k IH]; intros f HQ HR HP.
  - cbn. lra.
  - cbn [repeat]. rewrite feed_cons.
    apply Rle_trans
      with (Rabs (KalmanFilter.estimate (fst (KalmanFilter.update f m)) - m)).
    + apply IH; [exact HQ | exact HR |].
      apply Rlt_le, update_covariance_pos; assumption.
    + now apply update_contracts.
Qed.

(** C7, as the code has it.  A filter constructed with the default noise
    constants and initial estimate [E0] (-60 by default) and fed the
    constant [m] [N >= 10] times is within [0.1379 * |m - E0|] of [m], hence
    within 2 dBm of [m] when [m] is within 14.5 dBm of [E0]; and
    [getConfidence ()] after 10 updates is strictly greater than after 1
    update, whatever [m]. *)
Theorem constant_measurement_convergence (m E0 : R) (N : nat) :
  (10 <= N)%nat ->
  Rabs (KalmanFilter.estimate (fed_constant E0 m N) - m)
  <= 0.1379 * Rabs (m - E0)
  /\ (Rabs (m - E0) <= 14.5 ->
      Rabs (KalmanFilter.estimate (fed_constant E0 m N) - m) <= 2)
  /\ KalmanFilter.getConfidence (fed_constant E0 m 1)
     < KalmanFilter.getConfidence (fed_constant E0 m 10).
Proof.
  intros HN.
  destruct (tracks_after_ten m E0) as (HQ & HR & HP & HE).
  fold (fed_constant E0 m 10) in *.
  assert (Hten : Rabs (KalmanFilter.estimate (fed_constant E0 m 10) - m)
                 <= 0.1379 * Rabs (m - E0)).
  { rewrite HE, Rabs_mult, Rabs_pos_eq by lra.
    rewrite (Rabs_minus_sym E0 m). pose proof (Rabs_pos (m - E0)). nra. }
  assert (HNbound : Rabs (KalmanFilter.estimate (fed_constant E0 m N) - m)
                    <= 0.1379 * Rabs (m - E0)).
  { replace N with (10 + (N - 10))%nat by lia.
    unfold fed_constant at 1. rewrite repeat_app, feed_app.
    fold (fed_constant E0 m 10).
    eapply Rle_trans; [| exact Hten].
    apply feed_repeat_contracts; lra. }
  split; [exact HNbound |]. split; [intro Hnear; lra |].
  destruct (tracks_after_one m E0) as (_ & _ & HP1 & _).
  fold (fed_constant E0 m 1) in *.
  rewrite !getConfidence_small by lra. lra.
Qed.

Lemma constant_measurement_convergence_witness :
  Rabs (KalmanFilter.estimate (fed_constant (-60) (-65) 12) - -65) <= 2.
Proof.
  destruct (constant_measurement_convergence (-65) (-60) 12) as (_ & H & _).
  - lia.
  - apply H. replace (-65 - -60) with (-5) by lra.
    rewrite Rabs_left; lra.
Defined.

(** C7 fails as stated: ten updates of a new filter with the constant
    measurement -40 leave the estimate more than 2 dBm away from -40. *)
Lemma ten_updates_not_within_2_dBm :
  ~ Rabs (KalmanFilter.estimate
            (KalmanFilter.feed KalmanFilter.default (repeat (-40) 10))
          - -40)
    <= 2.
Proof.
  destruct (tracks_after_ten (-40) (-60)) as (_ & _ & _ & HE).
  change (KalmanFilter.new 0.125 4 (-60) 1) with KalmanFilter.default in HE.
  rewrite HE. rewrite Rabs_left; lra.
Qed.

(** ** The loop of getFusedEstimate, one entry at a time *)

Lemma visit_unfold
  (this : MultiRadioEstimator.state) (radioType : string)
  (e : DistanceEstimator.state) (now : Z) :
  MultiRadioEstimator.visit this radioType e now
  = if (length (DistanceEstimator.rawHistory e) =? 0)%nat then (e, [])
    else
      let f :=
        Math_round (KalmanFilter.estimate (DistanceEstimator.kalmanFilter e)
                    * 10) / 10 in
      (fst (DistanceEstimator.estimateDistance e f false now),
       match DistanceEstimator.distance_of
               (snd (DistanceEstimator.estimateDistance e f false now)),
             DistanceEstimator.confidence_of
               (snd (DistanceEstimator.estimateDistance e f false now))
       with
       | Value d, Value c =>
           [MultiRadioEstimator.mkSource
              radioType d c (MultiRadioEstimator.weight_for this radioType)]
       | _, _ => []
       end).
Proof.
  unfold MultiRadioEstimator.visit, DistanceEstimator.getStats.
  destruct (DistanceEstimator.rawHistory e) as [| r h] eqn:Hh;
    [reflexivity |].
  cbn [length Nat.eqb map Nat.ltb Nat.leb].
  destruct (DistanceEstimator.estimateDistance e _ false now) as [e' est].
  cbn [fst snd].
  destruct (DistanceEstimator.distance_of est);
    destruct (DistanceEstimator.confidence_of est); reflexivity.
Qed.

(** An entry without samples, or whose filtered RSSI is out of range, is
    left alone and contributes nothing. *)
Lemma visit_skips
  (this : MultiRadioEstimator.state) (radioType : string)
  (e : DistanceEstimator.state) (now : Z) :
  DistanceEstimator.rawHistory e = []
  \/ ~ DistanceEstimator.in_range
         (DistanceEstimator.model e)
         (Math_round (KalmanFilter.estimate (DistanceEstimator.kalmanFilter e)
                      * 10) / 10) ->
  MultiRadioEstimator.visit this radioType e now = (e, []).
Proof.
  intros Hskip. rewrite visit_unfold.
  destruct (DistanceEstimator.rawHistory e) as [| r h] eqn:Hh;
    [reflexivity |].
  destruct Hskip as [Habs | Hout]; [discriminate |].
  cbn [length Nat.eqb].
  assert (Hfail :
            Math_round (KalmanFilter.estimate
                          (DistanceEstimator.kalmanFilter e) * 10) / 10
            < minRssi (DistanceEstimator.model e)
            \/ maxRssi (DistanceEstimator.model e)
               < Math_round (KalmanFilter.estimate
                               (DistanceEstimator.kalmanFilter e) * 10) / 10).
  { unfold DistanceEstimator.in_range in Hout. lra. }
  cbv zeta. unfold DistanceEstimator.estimateDistance.
  rewrite (out_of_range_fails _ _ Hfail). reflexivity.
Qed.

(** An entry with samples and an in-range filtered RSSI gets that value
    pushed on its history and contributes one source. *)
Lemma visit_records
  (this : MultiRadioEstimator.state) (radioType : string)
  (e : DistanceEstimator.state) (now : Z) :
  DistanceEstimator.rawHistory e <> [] ->
  let f :=
    Math_round (KalmanFilter.estimate (DistanceEstimator.kalmanFilter e)
                * 10) / 10 in
  DistanceEstimator.in_range (DistanceEstimator.model e) f ->
  let e' := fst (DistanceEstimator.estimateDistance e f false now) in
  let distance :=
    referenceDistance (DistanceEstimator.model e)
    * Math_pow 10 ((referenceRssi (DistanceEstimator.model e) - f)
                   / (10 * pathLossExponent (DistanceEstimator.model e))) in
  MultiRadioEstimator.visit this radioType e now
  = (e',
     [MultiRadioEstimator.mkSource
        radioType
        (Math_round (distance * 100) / 100)
        (DistanceEstimator.calculateConfidence e' f distance)
        (MultiRadioEstimator.weight_for this radioType)])
  /\ DistanceEstimator.model e' = DistanceEstimator.model e
  /\ DistanceEstimator.kalmanFilter e' = DistanceEstimator.kalmanFilter e
  /\ DistanceEstimator.maxHistoryLength e'
     = DistanceEstimator.maxHistoryLength e
  /\ DistanceEstimator.rawHistory e' = DistanceEstimator.record e f now.
Proof.
  intros Hne f Hin e' distance.
  destruct (estimateDistance_accepts e f false now Hin)
    as (Hmodel & Hmax & Hhist & Hfilter).
  split; [| repeat split; assumption].
  rewrite visit_unfold.
  destruct (DistanceEstimator.rawHistory e) as [| r h] eqn:Hh;
    [contradiction |].
  cbn [length Nat.eqb]. cbv zeta. fold f.
  rewrite (estimateDistance_in_range e f false now Hin). reflexivity.
Qed.

(** ** What every reachable fusion estimator satisfies *)

Lemma in_range_dec (m : SignalModel) (x : R) :
  {DistanceEstimator.in_range m x} + {~ DistanceEstimator.in_range m x}.
Proof.
  unfold DistanceEstimator.in_range.
  destruct (Rle_dec (minRssi m) x); destruct (Rle_dec x (maxRssi m));
    (left; lra) || (right; lra).
Qed.

Lemma estimateDistance_model
  (this : DistanceEstimator.state) (rssi : R) (useFilter : bool) (now : Z) :
  DistanceEstimator.model
    (fst (DistanceEstimator.estimateDistance this rssi useFilter now))
  = DistanceEstimator.model this.
Proof.
  unfold DistanceEstimator.estimateDistance.
  destruct (ltb rssi _ || ltb _ rssi); [reflexivity |].
  destruct useFilter; reflexivity.
Qed.

Lemma estimateDistance_keeps_owned
  (this : DistanceEstimator.state) (rssi : R) (useFilter : bool) (now : Z) :
  owned_invariant this ->
  owned_invariant
    (fst (DistanceEstimator.estimateDistance this rssi useFilter now)).
Proof.
  intros [Hinv Hrel]. split.
  - now apply estimateDistance_keeps_invariant.
  - now rewrite estimateDistance_model.
Qed.

Lemma new_owned (radioType : string) :
  owned_invariant (DistanceEstimator.new radioType None).
Proof.
  split.
  - apply reachable_invariant, DistanceEstimator.reachable_new.
  - unfold DistanceEstimator.new, SignalModels.lookup.
    destruct (String.eqb radioType "BLE");
      [| destruct (String.eqb radioType "WIFI_2G");
         [| destruct (String.eqb radioType "WIFI_5G");
            [| destruct (String.eqb radioType "LORA")]]];
      cbn; lra.
Qed.

Lemma set_Forall {A : Type} (P : A -> Prop) (key : string) (v : A)
                 (obj : list (string * A)) :
  Forall (fun entry => P (snd entry)) obj -> P v ->
  Forall (fun entry => P (snd entry)) (MultiRadioEstimator.set key v obj).
Proof.
  intros Hall Hv. induction obj as [| [k x] rest IH]; cbn.
  - constructor; [exact Hv | constructor].
  - inversion Hall as [| ? ? Hx Hrest]; subst.
    destruct (String.eqb k key); constructor; auto.
Qed.

Lemma get_Forall {A : Type} (P : A -> Prop) (key : string) (v : A)
                 (obj : list (string * A)) :
  Forall (fun entry => P (snd entry)) obj ->
  MultiRadioEstimator.get key obj = Some v -> P v.
Proof.
  intros Hall. induction obj as [| [k x] rest IH]; cbn; [discriminate |].
  inversion Hall as [| ? ? Hx Hrest]; subst.
  destruct (String.eqb k key); [| now apply IH].
  intro Heq. injection Heq as <-. exact Hx.
Qed.

Lemma visit_keeps_owned
  (this : MultiRadioEstimator.state) (radioType : string)
  (e : DistanceEstimator.state) (now : Z) :
  owned_invariant e ->
  owned_invariant (fst (MultiRadioEstimator.visit this radioType e now)).
Proof.
  intro He. rewrite visit_unfold.
  destruct (length (DistanceEstimator.rawHistory e) =? 0)%nat;
    [exact He |].
  cbn [fst]. now apply estimateDistance_keeps_owned.
Qed.

Lemma visit_all_keeps_owned
  (this : MultiRadioEstimator.state)
  (entries : list (string * DistanceEstimator.state)) :
  forall (clock : nat -> Z) (i : nat),
    Forall (fun entry => owned_invariant (snd entry)) entries ->
    Forall (fun entry => owned_invariant (snd entry))
           (fst (MultiRadioEstimator.visit_all this entries clock i)).
Proof.
  induction entries as [| [radioType e] rest IH]; intros clock i Hall;
    cbn [MultiRadioEstimator.visit_all].
  - constructor.
  - inversion Hall as [| ? ? He Hrest]; subst.
    pose proof (visit_keeps_owned this radioType e (clock i) He) as Hv.
    specialize (IH clock (S i) Hrest).
    destruct (MultiRadioEstimator.visit this radioType e (clock i))
      as [e' pushed].
    destruct (MultiRadioEstimator.visit_all this rest clock (S i))
      as [rest' more].
    constructor; assumption.
Qed.

Lemma getFusedEstimate_estimators
  (this : MultiRadioEstimator.state) (clock : nat -> Z) :
  MultiRadioEstimator.estimators
    (fst (MultiRadioEstimator.getFusedEstimate this clock))
  = fst (MultiRadioEstimator.visit_all
           this (MultiRadioEstimator.estimators this) clock 0).
Proof.
  unfold MultiRadioEstimator.getFusedEstimate.
  destruct (MultiRadioEstimator.visit_all _ _ clock 0) as [entries' sources].
  destruct (length sources =? 0)%nat; [reflexivity |].
  destruct (fold_left MultiRadioEstimator.accumulate sources (0, 0, 0))
    as [[tw wd] mc].
  reflexivity.
Qed.

Lemma addReading_estimators
  (this : MultiRadioEstimator.state) (radioType : string) (rssi : R)
  (now : Z) :
  MultiRadioEstimator.estimators
    (fst (MultiRadioEstimator.addReading this radioType rssi now))
  = MultiRadioEstimator.set
      radioType
      (fst (DistanceEstimator.estimateDistance
              (match MultiRadioEstimator.get
                       radioType (MultiRadioEstimator.estimators this) with
               | Some e => e
               | None => DistanceEstimator.new radioType None
               end)
              rssi true now))
      (match MultiRadioEstimator.get
               radioType (MultiRadioEstimator.estimators this) with
       | Some _ => MultiRadioEstimator.estimators this
       | None =>
           MultiRadioEstimator.set radioType
                                   (DistanceEstimator.new radioType None)
                                   (MultiRadioEstimator.estimators this)
       end).
Proof.
  unfold MultiRadioEstimator.addReading, MultiRadioEstimator.getEstimator.
  destruct (MultiRadioEstimator.get radioType
                                    (MultiRadioEstimator.estimators this))
    as [e |];
    destruct (DistanceEstimator.estimateDistance _ rssi true now);
    reflexivity.
Qed.

Lemma reachable_multi_invariant (this : MultiRadioEstimator.state) :
  MultiRadioEstimator.reachable this -> multi_invariant this.
Proof.
  induction 1 as [| this c Hreach IH]; unfold multi_invariant in *.
  - constructor.
  - destruct c as [radioType rssi now | clock |];
      cbn [MultiRadioEstimator.perform].
    + rewrite addReading_estimators.
      destruct (MultiRadioEstimator.get
                  radioType (MultiRadioEstimator.estimators this))
        as [e |] eqn:Hget.
      * apply set_Forall; [exact IH |].
        apply estimateDistance_keeps_owned.
        exact (get_Forall owned_invariant radioType e _ IH Hget).
      * apply set_Forall.
        -- apply set_Forall; [exact IH | apply new_owned].
        -- apply estimateDistance_keeps_owned, new_owned.
    + rewrite getFusedEstimate_estimators.
      now apply visit_all_keeps_owned.
    + cbn. apply Forall_map. cbn [fst snd].
      eapply Forall_impl; [| exact IH].
      intros [k e] [(Hmax & Hlen & HQ & HR & HP) Hrel]. cbn in *.
      split; [| exact Hrel].
      unfold estimator_invariant. cbn. repeat split; try assumption;
        try lia; lra.
Qed.

(** ** The fused confidence *)

Lemma getConfidence_nonneg (f : KalmanFilter.state) :
  0 <= KalmanFilter.getConfidence f.
Proof. unfold KalmanFilter.getConfidence, Math_max. apply Rmax_l. Qed.

Lemma calculateRssiStability_nonneg (e : DistanceEstimator.state) :
  0 <= DistanceEstimator.calculateRssiStability e.
Proof.
  unfold DistanceEstimator.calculateRssiStability, Math_min.
  destruct (length (DistanceEstimator.rawHistory e) <? 3)%nat; [lra |].
  cbv zeta.
  pose proof (Rmin_r (Math_sqrt
                        (sum_sq_dev
                           (sum (map DistanceEstimator.rssi
                                     (DistanceEstimator.rawHistory e))
                            / INR (length
                                     (map DistanceEstimator.rssi
                                          (DistanceEstimator.rawHistory e))))
                           (map DistanceEstimator.rssi
                                (DistanceEstimator.rawHistory e))
                         / INR (length
                                  (map DistanceEstimator.rssi
                                       (DistanceEstimator.rawHistory e))))
                      / 10) 1).
  lra.
Qed.

Lemma calculateConfidence_nonneg
  (e : DistanceEstimator.state) (f d : R) :
  0 < maxReliableDistance (DistanceEstimator.model e) ->
  0 <= DistanceEstimator.calculateConfidence e f d.
Proof.
  intro Hrel. unfold DistanceEstimator.calculateConfidence. cbv zeta.
  apply Rmult_le_pos; [| lra].
  apply Math_round_nonneg, Rmult_le_pos; [| lra].
  pose proof (getConfidence_nonneg (DistanceEstimator.kalmanFilter e)).
  pose proof (calculateRssiStability_nonneg e).
  assert (Hsample :
            0 <= Math_min (INR (length (DistanceEstimator.rawHistory e)) / 10)
                          1).
  { unfold Math_min. apply Rmin_glb; [| lra].
    pose proof (pos_INR (length (DistanceEstimator.rawHistory e))). lra. }
  assert (Hdist :
            0 <= (if leb d (maxReliableDistance (DistanceEstimator.model e))
                  then 1 - d / maxReliableDistance (DistanceEstimator.model e)
                           * 0.5
                  else 0.1)).
  { unfold leb.
    destruct (Rle_dec d (maxReliableDistance (DistanceEstimator.model e)))
      as [Hle | Hgt]; [| lra].
    assert (d / maxReliableDistance (DistanceEstimator.model e) <= 1).
    { apply Rmult_le_reg_r
        with (maxReliableDistance (DistanceEstimator.model e));
        [exact Hrel |].
      unfold Rdiv. rewrite Rmult_assoc, Rinv_l by lra. lra. }
    lra. }
  lra.
Qed.



Lemma accumulate_max (sources : list MultiRadioEstimator.Source) :
  forall tw wd mc,
    snd (fold_left MultiRadioEstimator.accumulate sources (tw, wd, mc))
    = fold_left Rmax (map MultiRadioEstimator.confidence sources) mc.
Proof.
  induction sources as [| s rest IH]; intros tw wd mc; [reflexivity |].
  cbn [fold_left map]. unfold MultiRadioEstimator.accumulate at 2.
  rewrite IH. reflexivity.
Qed.

(** What [getFusedEstimate] returns when at least one source
    contributes. *)
Lemma getFusedEstimate_fused
  (this : MultiRadioEstimator.state) (clock : nat -> Z) :
  let sources :=
    snd (MultiRadioEstimator.visit_all
           this (MultiRadioEstimator.estimators this) clock 0) in
  sources <> [] ->
  exists d,
    snd (MultiRadioEstimator.getFusedEstimate this clock)
    = MultiRadioEstimator.Fused
        d
        (round2 (fold_left Rmax
                           (map MultiRadioEstimator.confidence sources) 0
                 * INR (length sources) / 3))
        (length sources) sources.
Proof.
  intros sources Hne. unfold MultiRadioEstimator.getFusedEstimate.
  unfold sources in *.
  destruct (MultiRadioEstimator.visit_all _ _ clock 0) as [entries' srcs].
  cbn [snd] in *.
  destruct srcs as [| s rest]; [contradiction |].
  cbn [length Nat.eqb].
  pose proof (accumulate_max (s :: rest) 0 0 0) as Hmax.
  destruct (fold_left MultiRadioEstimator.accumulate (s :: rest) (0, 0, 0))
    as [[tw wd] mc].
  cbn [snd] in *. subst mc. eexists. reflexivity.
Qed.

Lemma getFusedEstimate_none
  (this : MultiRadioEstimator.state) (clock : nat -> Z) :
  snd (MultiRadioEstimator.visit_all
         this (MultiRadioEstimator.estimators this) clock 0) = [] ->
  snd (MultiRadioEstimator.getFusedEstimate this clock)
  = MultiRadioEstimator.NoEstimates 0 0 "No valid estimates available".
Proof.
  intro Hnil. unfold MultiRadioEstimator.getFusedEstimate.
  destruct (MultiRadioEstimator.visit_all _ _ clock 0) as [entries' srcs].
  cbn [snd] in Hnil. subst srcs. reflexivity.
Qed.


(** ** An estimator that only sees its reference RSSI *)

Lemma sum_constant (x : R) (values : list R) :
  Forall (fun v => v = x) values ->
  forall acc, fold_left Rplus values acc = acc + INR (length values) * x.
Proof.
  induction 1 as [| v rest Hv Hrest IH]; intro acc.
  - cbn. lra.
  - cbn [fold_left length]. rewrite IH, S_INR, Hv. lra.
Qed.

Lemma mean_constant (x : R) (values : list R) :
  values <> [] -> Forall (fun v => v = x) values ->
  sum values / INR (length values) = x.
Proof.
  intros Hne Hall. unfold sum. rewrite (sum_constant x values Hall).
  assert (Hlen : 0 < INR (length values)).
  { apply lt_0_INR. destruct values; [contradiction | cbn; lia]. }
  field. lra.
Qed.

Lemma sum_sq_dev_constant (x : R) (values : list R) :
  Forall (fun v => v = x) values ->
  forall acc,
    fold_left (fun a v => a + (v - x) * (v - x)) values acc = acc.
Proof.
  induction 1 as [| v rest Hv Hrest IH]; intro acc; [reflexivity |].
  cbn [fold_left]. rewrite IH, Hv. lra.
Qed.

Lemma settled_values (e : DistanceEstimator.state) (m : SignalModel)
                     (k : nat) (p : R) :
  settled e m k p ->
  Forall (fun v => v = referenceRssi m)
         (map DistanceEstimator.rssi (DistanceEstimator.rawHistory e)).
Proof.
  intros (_ & _ & _ & _ & _ & _ & _ & Hall).
  apply Forall_map. exact Hall.
Qed.

Lemma settled_stability (e : DistanceEstimator.state) (m : SignalModel)
                        (k : nat) (p : R) :
  settled e m k p ->
  DistanceEstimator.calculateRssiStability e
  = if (k <? 3)%nat then 0.5 else 1.
Proof.
  intro Hs. pose proof (settled_values e m k p Hs) as Hvals.
  destruct Hs as (_ & _ & _ & _ & _ & _ & Hlen & _).
  unfold DistanceEstimator.calculateRssiStability. rewrite Hlen.
  destruct (Nat.ltb_spec k 3) as [Hfew | Hmany]; [reflexivity |].
  cbv zeta.
  assert (Hne : map DistanceEstimator.rssi (DistanceEstimator.rawHistory e)
                <> []).
  { destruct (DistanceEstimator.rawHistory e); cbn in *; [lia | discriminate]. }
  rewrite (mean_constant _ _ Hne Hvals).
  unfold sum_sq_dev. rewrite (sum_sq_dev_constant _ _ Hvals).
  unfold Math_sqrt, Math_min, Rdiv. rewrite Rmult_0_l, sqrt_0, Rmult_0_l.
  rewrite Rmin_left by lra. lra.
Qed.

Lemma settled_confidence (e : DistanceEstimator.state) (m : SignalModel)
                         (k : nat) (p f : R) :
  settled e m k p -> 0 <= p <= 10 -> (k <= 10)%nat ->
  1 <= maxReliableDistance m ->
  DistanceEstimator.calculateConfidence e f 1
  = Math_round
      (((1 - p / 10) * 0.25 + INR k / 10 * 0.25
        + (if (k <? 3)%nat then 0.5 else 1) * 0.3
        + (1 - 1 / maxReliableDistance m * 0.5) * 0.2) * 100)
    / 100.
Proof.
  intros Hs Hp Hk Hrel.
  unfold DistanceEstimator.calculateConfidence. cbv zeta.
  rewrite (settled_stability e m k p Hs).
  destruct Hs as (Hmodel & _ & _ & _ & _ & HP & Hlen & _).
  rewrite getConfidence_small by (rewrite HP; exact Hp).
  rewrite HP, Hlen, Hmodel, (leb_true 1 _ Hrel).
  unfold Math_min. rewrite Rmin_left; [reflexivity |].
  apply le_INR in Hk.
  replace (INR 10) with 10 in Hk by (cbn; lra). lra.
Qed.

Lemma record_room (e : DistanceEstimator.state) (rssi : R) (now : Z) :
  DistanceEstimator.maxHistoryLength e = 50%nat ->
  (length (DistanceEstimator.rawHistory e) < 50)%nat ->
  DistanceEstimator.record e rssi now
  = DistanceEstimator.rawHistory e ++ [DistanceEstimator.mkReading rssi now].
Proof.
  intros Hmax Hlen. unfold DistanceEstimator.record.
  rewrite Hmax, length_app. cbn [length].
  destruct (Nat.ltb_spec 50 (length (DistanceEstimator.rawHistory e) + 1));
    [lia | reflexivity].
Qed.

Lemma settled_new (radioType : string) :
  settled (DistanceEstimator.new radioType None)
          (DistanceEstimator.model (DistanceEstimator.new radioType None))
          0 1.
Proof. unfold settled. cbn. repeat split. constructor. Qed.

Lemma settled_reading (e : DistanceEstimator.state) (m : SignalModel)
                      (z : Z) (k : nat) (p p' : R) (now : Z) :
  settled e m k p -> reference_model m z -> (k < 50)%nat -> 0 < p ->
  p' = 4 * (p + 0.125) / (p + 4.125) ->
  settled (fst (DistanceEstimator.estimateDistance e (IZR z) true now))
          m (S k) p'.
Proof.
  intros (Hmodel & Hmax & HQ & HR & HE & HP & Hlen & Hall)
         (Hz & _ & Hin & _) Hk Hp Hp'.
  rewrite <- Hmodel in Hin.
  destruct (estimateDistance_accepts e (IZR z) true now Hin)
    as (Hmodel' & Hmax' & Hhist & Hfilter).
  assert (Ht : tracks (DistanceEstimator.kalmanFilter e) (IZR z) (IZR z) p 0).
  { unfold tracks. rewrite HE, Hz. repeat split; try assumption. lra. }
  destruct (tracks_step _ _ _ _ _ _ 0 Ht Hp Hp' ltac:(lra))
    as (HQ' & HR' & HP' & HE').
  unfold settled. rewrite Hmodel', Hmax', Hhist, Hfilter.
  rewrite record_room by (assumption || lia).
  repeat split; try assumption.
  - rewrite Hz. lra.
  - rewrite length_app. cbn. lia.
  - apply Forall_app. split; [exact Hall |].
    constructor; [cbn; now rewrite Hz | constructor].
Qed.

Lemma round1_IZR (z : Z) : Math_round (IZR z * 10) / 10 = IZR z.
Proof.
  replace (IZR z * 10) with (IZR (z * 10)) by (rewrite mult_IZR; reflexivity).
  rewrite Math_round_IZR, mult_IZR. field.
Qed.

(** [getFusedEstimate] on a settled estimator: the reference RSSI is
    pushed once more, the filter is not touched and the source reports the
    reference distance of 1 m. *)
Lemma visit_settled
  (this : MultiRadioEstimator.state) (radioType : string)
  (e : DistanceEstimator.state) (m : SignalModel) (z : Z) (k : nat) (p : R)
  (now : Z) :
  settled e m k p -> reference_model m z -> (0 < k < 50)%nat ->
  settled (fst (MultiRadioEstimator.visit this radioType e now)) m (S k) p
  /\ snd (MultiRadioEstimator.visit this radioType e now)
     = [MultiRadioEstimator.mkSource
          radioType 1
          (DistanceEstimator.calculateConfidence
             (fst (MultiRadioEstimator.visit this radioType e now))
             (IZR z) 1)
          (MultiRadioEstimator.weight_for this radioType)].
Proof.
  intros (Hmodel & Hmax & HQ & HR & HE & HP & Hlen & Hall)
         (Hz & Hd0 & Hin & Hrel) Hk.
  assert (Hne : DistanceEstimator.rawHistory e <> []).
  { destruct (DistanceEstimator.rawHistory e); cbn in Hlen;
      [lia | discriminate]. }
  assert (Hf : Math_round
                 (KalmanFilter.estimate (DistanceEstimator.kalmanFilter e)
                  * 10) / 10 = IZR z)
    by (rewrite HE, Hz; apply round1_IZR).
  assert (Hin' : DistanceEstimator.in_range
                   (DistanceEstimator.model e)
                   (Math_round
                      (KalmanFilter.estimate
                         (DistanceEstimator.kalmanFilter e) * 10) / 10))
    by (rewrite Hf, Hmodel; exact Hin).
  destruct (visit_records this radioType e now Hne Hin')
    as (Hv & Hmodel' & Hfilter' & Hmax' & Hhist').
  cbv zeta in Hv. rewrite Hf in Hv, Hmodel', Hfilter', Hmax', Hhist'.
  assert (Hdist :
            referenceDistance (DistanceEstimator.model e)
            * Math_pow 10 ((referenceRssi (DistanceEstimator.model e) - IZR z)
                           / (10 * pathLossExponent
                                     (DistanceEstimator.model e)))
            = 1).
  { rewrite Hmodel, Hz, Hd0. unfold Math_pow, Rdiv.
    replace (IZR z - IZR z) with 0 by ring.
    rewrite Rmult_0_l, Rpower_O by lra. lra. }
  rewrite Hdist in Hv.
  replace (Math_round (1 * 100) / 100) with 1 in Hv
    by (replace (1 * 100) with (IZR 100) by lra;
        rewrite Math_round_IZR; lra).
  rewrite Hv. cbn [fst snd]. split; [| reflexivity].
  unfold settled. rewrite Hmodel', Hfilter', Hmax', Hhist'.
  rewrite record_room by (assumption || lia).
  repeat split; try assumption.
  - rewrite length_app. cbn. lia.
  - apply Forall_app. split; [exact Hall |].
    constructor; [cbn; now rewrite Hz | constructor].
Qed.

Lemma reference_BLE : reference_model SignalModels.BLE (-59).
Proof.
  unfold reference_model, DistanceEstimator.in_range. cbn.
  repeat split; lra.
Qed.






Lemma reachable_calls (calls : list MultiRadioEstimator.call) :
  forall this,
    MultiRadioEstimator.reachable this ->
    MultiRadioEstimator.reachable
      (fold_left MultiRadioEstimator.perform calls this).
Proof.
  induction calls as [| c rest IH]; intros this Hreach; [exact Hreach |].
  cbn [fold_left]. apply IH. now constructor.
Qed.

Lemma visit_all_cons
  (this : MultiRadioEstimator.state) (radioType : string)
  (e : DistanceEstimator.state)
  (rest : list (string * DistanceEstimator.state))
  (clock : nat -> Z) (i : nat) :
  MultiRadioEstimator.visit_all this ((radioType, e) :: rest) clock i
  = ((radioType,
      fst (MultiRadioEstimator.visit this radioType e (clock i)))
       :: fst (MultiRadioEstimator.visit_all this rest clock (S i)),
     snd (MultiRadioEstimator.visit this radioType e (clock i))
     ++ snd (MultiRadioEstimator.visit_all this rest clock (S i))).
Proof.
  cbn [MultiRadioEstimator.visit_all].
  destruct (MultiRadioEstimator.visit this radioType e (clock i)).
  destruct (MultiRadioEstimator.visit_all this rest clock (S i)).
  reflexivity.
Qed.






(** ** getFusedEstimate writes to the histories *)

Lemma visit_all_nth
  (this : MultiRadioEstimator.state)
  (entries : list (string * DistanceEstimator.state)) (clock : nat -> Z) :
  forall (j i : nat) (radioType : string) (e : DistanceEstimator.state),
    nth_error entries i = Some (radioType, e) ->
    nth_error (fst (MultiRadioEstimator.visit_all this entries clock j)) i
    = Some (radioType,
            fst (MultiRadioEstimator.visit this radioType e
                                           (clock (j + i)%nat))).
Proof.
  induction entries as [| [k x] rest IH]; intros j i radioType e Hnth.
  - destruct i; discriminate.
  - rewrite visit_all_cons. cbn [fst]. destruct i as [| i].
    + cbn in Hnth. injection Hnth as -> ->. cbn. now rewrite Nat.add_0_r.
    + cbn [nth_error] in *. rewrite (IH (S j) i radioType e Hnth).
      now replace (S j + i)%nat with (j + S i)%nat by lia.
Qed.

Lemma getStats_summary
  (e : DistanceEstimator.state) (n : nat)
  (mean lo hi range stdDev f confidence : R) :
  DistanceEstimator.getStats e
  = DistanceEstimator.Summary n mean lo hi range stdDev f confidence ->
  n = length (DistanceEstimator.rawHistory e)
  /\ f = Math_round (KalmanFilter.estimate (DistanceEstimator.kalmanFilter e)
                     * 10) / 10.
Proof.
  unfold DistanceEstimator.getStats.
  destruct (DistanceEstimator.rawHistory e) as [| r h]; cbn [length Nat.eqb];
    [discriminate |].
  intro H. injection H as Hn _ _ _ _ _ Hf _.
  rewrite length_map in Hn. cbn [length]. split; congruence.
Qed.

(** One source: what [getFusedEstimate] does to a fusion estimator whose
    only estimator is settled. *)
Lemma single_settled_fused
  (this : MultiRadioEstimator.state) (radioType : string)
  (e : DistanceEstimator.state) (m : SignalModel) (z : Z) (k : nat) (p : R)
  (clock : nat -> Z) :
  MultiRadioEstimator.estimators this = [(radioType, e)] ->
  settled e m k p -> reference_model m z -> (0 < k < 50)%nat ->
  exists e' d src,
    MultiRadioEstimator.estimators
      (fst (MultiRadioEstimator.getFusedEstimate this clock))
    = [(radioType, e')]
    /\ settled e' m (S k) p
    /\ snd (MultiRadioEstimator.getFusedEstimate this clock)
       = MultiRadioEstimator.Fused
           d
           (round2 (Rmax 0 (DistanceEstimator.calculateConfidence
                              e' (IZR z) 1) * 1 / 3))
           1 [src]
    /\ MultiRadioEstimator.confidence src
       = DistanceEstimator.calculateConfidence e' (IZR z) 1.
Proof.
  intros Hest Hs Href Hk.
  destruct (visit_settled this radioType e m z k p (clock 0%nat) Hs Href Hk)
    as (Hs' & Hsrc).
  destruct (getFusedEstimate_fused this clock) as [d Hfused].
  { rewrite Hest, visit_all_cons, Hsrc. discriminate. }
  rewrite Hest, visit_all_cons, Hsrc in Hfused.
  cbn [MultiRadioEstimator.visit_all snd app length map fold_left
       MultiRadioEstimator.confidence] in Hfused.
  replace (INR 1) with 1 in Hfused by (cbn; lra).
  eexists. eexists. eexists. split; [| split; [exact Hs' |]].
  - rewrite getFusedEstimate_estimators, Hest, visit_all_cons. reflexivity.
  - split; [exact Hfused | reflexivity].
Qed.

Lemma one_BLE_reading_estimators :
  exists b,
    MultiRadioEstimator.estimators one_BLE_reading = [("BLE"%string, b)]
    /\ settled b SignalModels.BLE 1 (36 / 41).
Proof.
  eexists. split.
  - unfold one_BLE_reading. cbn [MultiRadioEstimator.perform].
    rewrite addReading_estimators. reflexivity.
  - apply (settled_reading _ SignalModels.BLE (-59) 0 1 _ 1
                           (settled_new "BLE") reference_BLE);
      [lia | lra | lra].
Qed.

Lemma BLE_confidence_two (e : DistanceEstimator.state) (f : R) :
  settled e SignalModels.BLE 2 (36 / 41) ->
  DistanceEstimator.calculateConfidence e f 1 = 0.62.
Proof.
  intro Hs.
  rewrite (settled_confidence e _ 2 (36 / 41) f Hs) by (cbn; lra || lia).
  cbn [Nat.ltb Nat.leb maxReliableDistance SignalModels.BLE].
  replace (INR 2) with 2 by (cbn; lra).
  rewrite (Math_round_eq 62) by lra. lra.
Qed.

Lemma BLE_confidence_three (e : DistanceEstimator.state) (f : R) :
  settled e SignalModels.BLE 3 (36 / 41) ->
  DistanceEstimator.calculateConfidence e f 1 = 0.8.
Proof.
  intro Hs.
  rewrite (settled_confidence e _ 3 (36 / 41) f Hs) by (cbn; lra || lia).
  cbn [Nat.ltb Nat.leb maxReliableDistance SignalModels.BLE].
  replace (INR 3) with 3 by (cbn; lra).
  rewrite (Math_round_eq 80) by lra. lra.
Qed.

(** Two calls of [getFusedEstimate] in a row, with no reading in between:
    0.21, then 0.27. *)
Lemma one_BLE_reading_fused_twice (clock1 clock2 : nat -> Z) :
  MultiRadioEstimator.fused_confidence
    (snd (MultiRadioEstimator.getFusedEstimate one_BLE_reading clock1))
  = 0.21
  /\ MultiRadioEstimator.fused_confidence
       (snd (MultiRadioEstimator.getFusedEstimate
               (fst (MultiRadioEstimator.getFusedEstimate
                       one_BLE_reading clock1))
               clock2))
     = 0.27.
Proof.
  destruct one_BLE_reading_estimators as (b & Hest & Hb).
  destruct (single_settled_fused one_BLE_reading "BLE" b _ _ _ _ clock1
                                 Hest Hb reference_BLE ltac:(lia))
    as (b' & d1 & src1 & Hest' & Hb' & Hfused1 & _).
  destruct (single_settled_fused _ "BLE" b' _ _ _ _ clock2
                                 Hest' Hb' reference_BLE ltac:(lia))
    as (b'' & d2 & src2 & _ & Hb'' & Hfused2 & _).
  rewrite Hfused1, Hfused2. cbn [MultiRadioEstimator.fused_confidence].
  rewrite (BLE_confidence_two b' _ Hb'), (BLE_confidence_three b'' _ Hb'').
  unfold round2. rewrite !Rmax_right by lra.
  rewrite (Math_round_eq 21) by lra. rewrite (Math_round_eq 27) by lra.
  lra.
Qed.

(** C9.  [getFusedEstimate] changes the estimators it reads.  In a
    reachable state, for every estimator whose [getStats ()] reports at
    least one sample and a [filteredRssi] inside the model's range, the
    call pushes the reading [{ rssi: filteredRssi, timestamp: now }] on
    its history (dropping the oldest reading when 50 are held), so that
    [getStats ().samples] goes up by one until it reaches 50, while the
    filter and the model stay as they were; and the confidence reported
    changes as a result: two calls in a row on the same fusion estimator,
    with no reading in between, return the confidences 0.21 and 0.27. *)
Theorem getFusedEstimate_appends_readings :
  (forall this clock i radioType e n mean lo hi range stdDev f confidence,
      MultiRadioEstimator.reachable this ->
      nth_error (MultiRadioEstimator.estimators this) i
      = Some (radioType, e) ->
      DistanceEstimator.getStats e
      = DistanceEstimator.Summary n mean lo hi range stdDev f confidence ->
      DistanceEstimator.in_range (DistanceEstimator.model e) f ->
      exists e',
        nth_error (MultiRadioEstimator.estimators
                     (fst (MultiRadioEstimator.getFusedEstimate this clock)))
                  i
        = Some (radioType, e')
        /\ DistanceEstimator.rawHistory e'
           = lastn 50 (DistanceEstimator.rawHistory e
                       ++ [DistanceEstimator.mkReading f (clock i)])
        /\ ((length (DistanceEstimator.rawHistory e) < 50)%nat ->
            DistanceEstimator.rawHistory e'
            = DistanceEstimator.rawHistory e
              ++ [DistanceEstimator.mkReading f (clock i)])
        /\ DistanceEstimator.samples_of (DistanceEstimator.getStats e')
           = Nat.min
               (S (DistanceEstimator.samples_of
                     (DistanceEstimator.getStats e)))
               50
        /\ DistanceEstimator.kalmanFilter e'
           = DistanceEstimator.kalmanFilter e
        /\ DistanceEstimator.model e' = DistanceEstimator.model e)
  /\ (exists this clock1 clock2,
         MultiRadioEstimator.reachable this
         /\ MultiRadioEstimator.fused_confidence
              (snd (MultiRadioEstimator.getFusedEstimate this clock1))
            <> MultiRadioEstimator.fused_confidence
                 (snd (MultiRadioEstimator.getFusedEstimate
                         (fst (MultiRadioEstimator.getFusedEstimate
                                 this clock1))
                         clock2))).
Proof.
  split.
  - intros this clock i radioType e n mean lo hi range stdDev f confidence
           Hreach Hnth Hstats Hin.
    destruct (getStats_summary _ _ _ _ _ _ _ _ _ Hstats) as [Hn Hf].
    assert (Hne : DistanceEstimator.rawHistory e <> []).
    { intro Hnil. unfold DistanceEstimator.getStats in Hstats.
      rewrite Hnil in Hstats. discriminate. }
    pose proof (reachable_multi_invariant this Hreach) as Hinv.
    unfold multi_invariant in Hinv. rewrite Forall_forall in Hinv.
    destruct (Hinv _ (nth_error_In _ _ Hnth)) as [(Hmax & Hlen & _) _].
    cbn [snd] in Hmax, Hlen.
    subst f.
    destruct (visit_records this radioType e (clock i) Hne Hin)
      as (_ & Hmodel & Hfilter & Hmax' & Hhist).
    exists (fst (MultiRadioEstimator.visit this radioType e (clock i))).
    assert (Hvisit :
              fst (MultiRadioEstimator.visit this radioType e (clock i))
              = fst (DistanceEstimator.estimateDistance
                       e
                       (Math_round
                          (KalmanFilter.estimate
                             (DistanceEstimator.kalmanFilter e) * 10) / 10)
                       false (clock i))).
    { destruct (visit_records this radioType e (clock i) Hne Hin)
        as (Hv & _). now rewrite Hv. }
    rewrite Hvisit. split; [| split; [| split; [| split; [| split]]]].
    + rewrite getFusedEstimate_estimators.
      rewrite (visit_all_nth this _ clock 0 i radioType e Hnth).
      cbn [Nat.add]. rewrite Hvisit. reflexivity.
    + rewrite Hhist. now apply record_lastn.
    + intro Hroom. rewrite Hhist. now apply record_room.
    + rewrite !getStats_samples, Hhist. now apply record_length.
    + exact Hfilter.
    + exact Hmodel.
  - exists one_BLE_reading, (fun _ => 2%Z), (fun _ => 3%Z).
    split; [apply MultiRadioEstimator.reachable_call; constructor |].
    destruct (one_BLE_reading_fused_twice (fun _ => 2%Z) (fun _ => 3%Z))
      as [H1 H2].
    rewrite H1, H2. lra.
Qed.

Lemma getFusedEstimate_appends_readings_witness :
  exists this e e',
    nth_error (MultiRadioEstimator.estimators this) 0 = Some ("BLE"%string, e)
    /\ nth_error (MultiRadioEstimator.estimators
                    (fst (MultiRadioEstimator.getFusedEstimate
                            this (fun _ => 2%Z)))) 0
       = Some ("BLE"%string, e')
    /\ DistanceEstimator.samples_of (DistanceEstimator.getStats e')
       = Nat.min
           (S (DistanceEstimator.samples_of (DistanceEstimator.getStats e)))
           50.
Proof.
  destruct one_BLE_reading_estimators as (b & Hest & Hb).
  assert (Hnth : nth_error (MultiRadioEstimator.estimators one_BLE_reading) 0
                 = Some ("BLE"%string, b)) by now rewrite Hest.
  destruct Hb as (Hmodel & _ & _ & _ & HE & _ & Hlen & _).
  assert (Hf : Math_round
                 (KalmanFilter.estimate (DistanceEstimator.kalmanFilter b)
                  * 10) / 10 = -59)
    by (rewrite HE; apply (round1_IZR (-59))).
  destruct (DistanceEstimator.getStats b) as [| n mean lo hi range sd f c]
    eqn:Hstats.
  { unfold DistanceEstimator.getStats in Hstats.
    destruct (DistanceEstimator.rawHistory b); cbn in Hlen, Hstats;
      [lia | discriminate]. }
  destruct (getStats_summary _ _ _ _ _ _ _ _ _ Hstats) as [_ Hfeq].
  destruct (proj1 getFusedEstimate_appends_readings
                  one_BLE_reading (fun _ => 2%Z) 0%nat "BLE"%string b
                  n mean lo hi range sd f c)
    as (e' & Hnth' & _ & _ & Hsamples & _).
  - apply MultiRadioEstimator.reachable_call. constructor.
  - exact Hnth.
  - exact Hstats.
  - rewrite Hfeq, Hf, Hmodel. unfold DistanceEstimator.in_range. cbn. lra.
  - exists one_BLE_reading, b, e'. rewrite Hstats in Hsamples.
    rewrite Hstats. repeat split; assumption.
Defined.

(** * Further properties of the code *)

(** ** KalmanFilter *)

(** X1.  [getConfidence ()] is never negative, and it is at most 1 as soon
    as the error covariance is not negative (the constructor accepts any
    initial error, and the result is clamped at 0 only). *)
Theorem getConfidence_in_unit_interval (f : KalmanFilter.state) :
  0 <= KalmanFilter.getConfidence f
  /\ (0 <= KalmanFilter.errorCovariance f ->
      KalmanFilter.getConfidence f <= 1).
Proof.
  unfold KalmanFilter.getConfidence, Math_max, Math_min.
  split; [apply Rmax_l |].
  intro HP. apply Rmax_lub; [lra |].
  assert (0 <= Rmin (KalmanFilter.errorCovariance f / 10) 1)
    by (apply Rmin_glb; lra).
  lra.
Qed.

Lemma getConfidence_in_unit_interval_witness :
  KalmanFilter.getConfidence KalmanFilter.default <= 1.
Proof.
  apply (getConfidence_in_unit_interval KalmanFilter.default). cbn. lra.
Defined.

(** X2.  With positive noise constants and a non-negative error
    covariance, [update] moves the estimate towards the measurement and
    never past it: the new estimate lies between the old estimate and the
    measurement. *)
Theorem update_between_estimate_and_measurement
  (f : KalmanFilter.state) (m : R) :
  0 < KalmanFilter.noiseQ f -> 0 < KalmanFilter.noiseR f ->
  0 <= KalmanFilter.errorCovariance f ->
  Rmin (KalmanFilter.estimate f) m
  <= snd (KalmanFilter.update f m)
  <= Rmax (KalmanFilter.estimate f) m.
Proof.
  intros HQ HR HP. cbn.
  set (pe := KalmanFilter.errorCovariance f + KalmanFilter.noiseQ f).
  set (r := KalmanFilter.noiseR f) in *.
  set (E := KalmanFilter.estimate f).
  assert (Hpe : 0 < pe) by (unfold pe; lra).
  assert (Hk : 0 < pe / (pe + r) < 1).
  { split; [apply Rdiv_lt_0_compat; lra |].
    apply Rmult_lt_reg_r with (pe + r); [lra |].
    unfold Rdiv. rewrite Rmult_assoc, Rinv_l by lra. lra. }
  set (K := pe / (pe + r)) in *.
  unfold Rmin, Rmax. destruct (Rle_dec E m) as [Hle | Hgt]; nra.
Qed.

Lemma update_between_estimate_and_measurement_witness :
  Rmin (-60) (-40)
  <= snd (KalmanFilter.update KalmanFilter.default (-40))
  <= Rmax (-60) (-40).
Proof.
  apply (update_between_estimate_and_measurement KalmanFilter.default (-40));
    cbn; lra.
Defined.

Lemma covariance_invariant_update (f : KalmanFilter.state) (m : R) :
  covariance_invariant f ->
  covariance_invariant (fst (KalmanFilter.update f m))
  /\ KalmanFilter.errorCovariance (fst (KalmanFilter.update f m))
     <= KalmanFilter.errorCovariance f.
Proof.
  intros (HQ & HR & [Hpos Hle] & Hroot).
  unfold covariance_invariant. cbn. rewrite HQ, HR.
  set (P := KalmanFilter.errorCovariance f) in *.
  replace 0.125 with (/ 8) by lra.
  assert (Hnew : (1 - (P + / 8) / (P + / 8 + 4)) * (P + / 8)
                 = (32 * P + 4) / (8 * P + 33)) by (field; lra).
  rewrite Hnew.
  assert (Hden : 0 < 8 * P + 33) by lra.
  assert (Hinv : 0 < / (8 * P + 33)) by (now apply Rinv_0_lt_compat).
  assert (Hdown : (32 * P + 4) / (8 * P + 33) <= P).
  { apply Rmult_le_reg_r with (8 * P + 33); [exact Hden |].
    unfold Rdiv. rewrite Rmult_assoc, Rinv_l by lra. nra. }
  assert (Hup : 0 < (32 * P + 4) / (8 * P + 33))
    by (apply Rdiv_lt_0_compat; lra).
  split; [| exact Hdown].
  split; [reflexivity |]. split; [reflexivity |]. split; [lra |].
  replace ((32 * P + 4) / (8 * P + 33) * ((32 * P + 4) / (8 * P + 33))
           + (32 * P + 4) / (8 * P + 33) / 8 - 1 / 2)
    with (1024 * (P * P + P / 8 - 1 / 2)
          * (/ (8 * P + 33) * / (8 * P + 33))) by (field; lra).
  apply Rmult_le_pos; [lra |]. apply Rmult_le_pos; lra.
Qed.

Lemma reachable_covariance (this : DistanceEstimator.state) :
  DistanceEstimator.reachable this ->
  covariance_invariant (DistanceEstimator.kalmanFilter this).
Proof.
  assert (Hfresh : forall q r e n,
             q = 0.125 -> r = 4 ->
             covariance_invariant (KalmanFilter.mk q r e 1 n)).
  { intros q r e n -> ->. unfold covariance_invariant. cbn.
    repeat split; lra. }
  induction 1 as [radioType customModel | this c Hreach IH].
  - apply Hfresh; reflexivity.
  - destruct c as [rssi useFilter now | updates | knownDistance samples |];
      cbn [DistanceEstimator.perform].
    + unfold DistanceEstimator.estimateDistance.
      destruct (ltb rssi _ || ltb _ rssi); [exact IH |].
      destruct useFilter; cbn; [| exact IH].
      apply (covariance_invariant_update _ rssi IH).
    + exact IH.
    + unfold DistanceEstimator.calibrate.
      destruct (length samples <? 5)%nat; [exact IH |].
      cbn. destruct IH as (HQ & HR & _). now apply Hfresh.
    + cbn. destruct IH as (HQ & HR & _). now apply Hfresh.
Qed.

(** X3.  In every reachable estimator the error covariance of the filter
    stays between 0.647 and 1, so that the filter's [getConfidence ()] is
    confined to the interval from 0.9 to 0.9353. *)
Theorem filter_confidence_band (this : DistanceEstimator.state) :
  DistanceEstimator.reachable this ->
  0.647 <= KalmanFilter.errorCovariance (DistanceEstimator.kalmanFilter this)
        <= 1
  /\ 0.9 <= KalmanFilter.getConfidence (DistanceEstimator.kalmanFilter this)
         <= 0.9353.
Proof.
  intro Hreach.
  destruct (reachable_covariance this Hreach) as (_ & _ & [Hpos Hle] & Hroot).
  set (P := KalmanFilter.errorCovariance (DistanceEstimator.kalmanFilter this))
    in *.
  assert (Hlow : 0.647 <= P) by nra.
  split; [lra |].
  rewrite getConfidence_small by (fold P; lra). fold P. lra.
Qed.

Lemma filter_confidence_band_witness :
  0.9 <= KalmanFilter.getConfidence
           (DistanceEstimator.kalmanFilter
              (DistanceEstimator.new "BLE" None))
      <= 0.9353.
Proof.
  apply (filter_confidence_band (DistanceEstimator.new "BLE" None)).
  apply DistanceEstimator.reachable_new.
Defined.

(** X4.  In a reachable estimator an accepted reading fed through the
    filter never raises the error covariance, so the filter's
    [getConfidence ()] never goes down from one filtered reading to the
    next. *)
Theorem filtered_reading_never_lowers_confidence
  (this : DistanceEstimator.state) (rssi : R) (now : Z) :
  DistanceEstimator.reachable this ->
  DistanceEstimator.in_range (DistanceEstimator.model this) rssi ->
  let this' := fst (DistanceEstimator.estimateDistance this rssi true now) in
  KalmanFilter.errorCovariance (DistanceEstimator.kalmanFilter this')
  <= KalmanFilter.errorCovariance (DistanceEstimator.kalmanFilter this)
  /\ KalmanFilter.getConfidence (DistanceEstimator.kalmanFilter this)
     <= KalmanFilter.getConfidence (DistanceEstimator.kalmanFilter this').
Proof.
  intros Hreach Hin this'.
  pose proof (reachable_covariance this Hreach) as Hinv.
  destruct (estimateDistance_accepts this rssi true now Hin)
    as (_ & _ & _ & Hfilter).
  fold this' in Hfilter. rewrite Hfilter.
  destruct (covariance_invariant_update _ rssi Hinv)
    as ((_ & _ & [Hpos' Hle'] & _) & Hdown).
  destruct Hinv as (_ & _ & [Hpos Hle] & _).
  split; [exact Hdown |].
  rewrite !getConfidence_small by lra. lra.
Qed.

Lemma filtered_reading_never_lowers_confidence_witness :
  KalmanFilter.getConfidence
    (DistanceEstimator.kalmanFilter (DistanceEstimator.new "BLE" None))
  <= KalmanFilter.getConfidence
       (DistanceEstimator.kalmanFilter
          (fst (DistanceEstimator.estimateDistance
                  (DistanceEstimator.new "BLE" None) (-59) true 0%Z))).
Proof.
  apply (filtered_reading_never_lowers_confidence
           (DistanceEstimator.new "BLE" None) (-59) 0%Z).
  - apply DistanceEstimator.reachable_new.
  - exact BLE_reference_in_range.
Defined.

(** ** DistanceEstimator *)

Lemma feed_from_filter (samples : list R) :
  forall (this : DistanceEstimator.state) (clock : nat -> Z) (n : nat),
    Forall (DistanceEstimator.in_range (DistanceEstimator.model this))
           samples ->
    DistanceEstimator.kalmanFilter
      (DistanceEstimator.feed_from this samples clock n)
    = KalmanFilter.feed (DistanceEstimator.kalmanFilter this) samples.
Proof.
  induction samples as [| rssi rest IH]; intros this clock n Hall;
    [reflexivity |].
  inversion Hall as [| x l Hin Hrest]; subst.
  destruct (estimateDistance_accepts this rssi true (clock n) Hin)
    as (Hmodel & _ & _ & Hfilter).
  cbn [DistanceEstimator.feed_from]. rewrite IH by now rewrite Hmodel.
  rewrite Hfilter, feed_cons. reflexivity.
Qed.

(** X5.  Feeding accepted samples to a new estimator feeds them, in order,
    to its filter: the filter's [sampleCount] is the number of samples,
    without the cap of 50 that [getStats ().samples] has. *)
Theorem sampleCount_counts_every_sample
  (radioType : string) (customModel : option SignalModel)
  (samples : list R) (clock : nat -> Z) :
  Forall (DistanceEstimator.in_range
            (DistanceEstimator.model
               (DistanceEstimator.new radioType customModel)))
         samples ->
  let this :=
    DistanceEstimator.feed (DistanceEstimator.new radioType customModel)
                           samples clock in
  DistanceEstimator.kalmanFilter this
  = KalmanFilter.feed
      (DistanceEstimator.kalmanFilter
         (DistanceEstimator.new radioType customModel))
      samples
  /\ KalmanFilter.sampleCount (DistanceEstimator.kalmanFilter this)
     = length samples
  /\ DistanceEstimator.samples_of (DistanceEstimator.getStats this)
     = Nat.min (length samples) 50.
Proof.
  intros Hall this. unfold this, DistanceEstimator.feed.
  rewrite feed_from_filter by exact Hall.
  split; [reflexivity |]. split.
  - destruct (feed_constants
                samples
                (DistanceEstimator.kalmanFilter
                   (DistanceEstimator.new radioType customModel)))
      as (_ & _ & Hcount).
    rewrite Hcount. reflexivity.
  - rewrite getStats_samples, feed_from_history;
      [| reflexivity | cbn; lia | exact Hall].
    cbn [DistanceEstimator.new DistanceEstimator.rawHistory app].
    rewrite lastn_length, stamped_length. lia.
Qed.

Lemma sampleCount_counts_every_sample_witness :
  KalmanFilter.sampleCount
    (DistanceEstimator.kalmanFilter
       (DistanceEstimator.feed (DistanceEstimator.new "BLE" None)
                               (repeat (-59) 60) Z.of_nat))
  = 60%nat.
Proof.
  destruct (sampleCount_counts_every_sample
              "BLE" None (repeat (-59) 60) Z.of_nat) as (_ & H & _).
  - apply Forall_forall. intros x Hx. apply repeat_spec in Hx. subst x.
    unfold DistanceEstimator.in_range. cbn. lra.
  - rewrite H. apply repeat_length.
Defined.

(** X6.  [calibrate] with fewer than 5 samples (none included) returns
    [false] and changes nothing: model, filter and history are as
    before. *)
Theorem calibrate_needs_five_samples
  (this : DistanceEstimator.state) (knownDistance : R) (samples : list R) :
  (length samples < 5)%nat ->
  DistanceEstimator.calibrate this knownDistance samples = (this, false).
Proof.
  intro Hfew. unfold DistanceEstimator.calibrate.
  destruct (Nat.ltb_spec (length samples) 5); [reflexivity | lia].
Qed.

Lemma calibrate_needs_five_samples_witness :
  DistanceEstimator.calibrate (DistanceEstimator.new "BLE" None) 1 []
  = (DistanceEstimator.new "BLE" None, false).
Proof.
  apply (calibrate_needs_five_samples
           (DistanceEstimator.new "BLE" None) 1 []).
  cbn. lia.
Defined.

(** X7.  [reset ()] on a reachable estimator gives the estimator the
    constructor builds for the current model: empty history (so
    [getStats ()] is [{ samples: 0 }]), filter back on the model's current
    reference RSSI.  Every later call therefore answers as on a new
    estimator with that model. *)
Theorem reset_is_construction
  (this : DistanceEstimator.state) (radioType : string) :
  DistanceEstimator.reachable this ->
  DistanceEstimator.reset this
  = DistanceEstimator.new radioType (Some (DistanceEstimator.model this))
  /\ DistanceEstimator.getStats (DistanceEstimator.reset this)
     = DistanceEstimator.NoSamples.
Proof.
  intro Hreach.
  destruct (reachable_invariant this Hreach) as (Hmax & _ & HQ & HR & _).
  split; [| reflexivity].
  unfold DistanceEstimator.reset, DistanceEstimator.new, KalmanFilter.reset,
    KalmanFilter.new.
  now rewrite Hmax, HQ, HR.
Qed.

Lemma reset_is_construction_witness :
  DistanceEstimator.reset
    (fst (DistanceEstimator.estimateDistance
            (DistanceEstimator.new "BLE" None) (-59) true 0%Z))
  = DistanceEstimator.new
      "BLE"
      (Some (DistanceEstimator.model
               (fst (DistanceEstimator.estimateDistance
                       (DistanceEstimator.new "BLE" None) (-59) true 0%Z)))).
Proof.
  apply (reset_is_construction
           (fst (DistanceEstimator.estimateDistance
                   (DistanceEstimator.new "BLE" None) (-59) true 0%Z))
           "BLE").
  apply (DistanceEstimator.reachable_call
           _ (DistanceEstimator.CallEstimateDistance (-59) true 0%Z)).
  apply DistanceEstimator.reachable_new.
Defined.

(** X8.  With [useFilter = false] the filter is never touched, and for an
    accepted RSSI the fields [distance], [filteredRssi], [rawRssi], [model]
    and [reliable] of the result are determined by the model and the RSSI
    alone: two estimators with the same model return the same ones,
    whatever their histories and filters. *)
Theorem unfiltered_estimate_is_stateless
  (e1 e2 : DistanceEstimator.state) (rssi : R) (now1 now2 : Z) :
  DistanceEstimator.model e1 = DistanceEstimator.model e2 ->
  let r1 := snd (DistanceEstimator.estimateDistance e1 rssi false now1) in
  let r2 := snd (DistanceEstimator.estimateDistance e2 rssi false now2) in
  DistanceEstimator.kalmanFilter
    (fst (DistanceEstimator.estimateDistance e1 rssi false now1))
  = DistanceEstimator.kalmanFilter e1
  /\ DistanceEstimator.distance_of r1 = DistanceEstimator.distance_of r2
  /\ DistanceEstimator.filteredRssi_of r1
     = DistanceEstimator.filteredRssi_of r2
  /\ DistanceEstimator.rawRssi_of r1 = DistanceEstimator.rawRssi_of r2
  /\ DistanceEstimator.model_of r1 = DistanceEstimator.model_of r2
  /\ DistanceEstimator.reliable_of r1 = DistanceEstimator.reliable_of r2.
Proof.
  intros Hmodel r1 r2. unfold r1, r2, DistanceEstimator.estimateDistance.
  rewrite Hmodel.
  destruct (ltb rssi _ || ltb _ rssi); cbn; repeat split.
Qed.

Lemma unfiltered_estimate_is_stateless_witness :
  DistanceEstimator.distance_of
    (snd (DistanceEstimator.estimateDistance
            (DistanceEstimator.new "BLE" None) (-70) false 0%Z))
  = DistanceEstimator.distance_of
      (snd (DistanceEstimator.estimateDistance
              (fst (DistanceEstimator.estimateDistance
                      (DistanceEstimator.new "BLE" None) (-50) true 0%Z))
              (-70) false 1%Z)).
Proof.
  apply (unfiltered_estimate_is_stateless
           (DistanceEstimator.new "BLE" None)
           (fst (DistanceEstimator.estimateDistance
                   (DistanceEstimator.new "BLE" None) (-50) true 0%Z))
           (-70) 0%Z 1%Z).
  symmetry. apply estimateDistance_model.
Defined.

(** X9.  At the model's reference RSSI, with the filter off, the distance
    is the model's reference distance (rounded to two decimals), whatever
    the path-loss exponent, as long as it is not zero. *)
Theorem distance_at_reference_rssi
  (this : DistanceEstimator.state) (now : Z) :
  DistanceEstimator.in_range (DistanceEstimator.model this)
                             (referenceRssi (DistanceEstimator.model this)) ->
  pathLossExponent (DistanceEstimator.model this) <> 0 ->
  DistanceEstimator.distance_of
    (snd (DistanceEstimator.estimateDistance
            this (referenceRssi (DistanceEstimator.model this)) false now))
  = Value (round2 (referenceDistance (DistanceEstimator.model this))).
Proof.
  intros Hin Hn.
  rewrite (estimateDistance_in_range this _ false now Hin).
  cbn [DistanceEstimator.distance_of]. unfold round2, Math_pow, Rdiv.
  rewrite Rminus_diag, Rmult_0_l, Rpower_O, Rmult_1_r by lra.
  reflexivity.
Qed.

Lemma distance_at_reference_rssi_witness :
  DistanceEstimator.distance_of
    (snd (DistanceEstimator.estimateDistance
            (DistanceEstimator.new "BLE" None) (-59) false 0%Z))
  = Value (round2 1.0).
Proof.
  apply (distance_at_reference_rssi (DistanceEstimator.new "BLE" None) 0%Z).
  - exact BLE_reference_in_range.
  - cbn. lra.
Defined.

Lemma getConfidence_bounds (f : KalmanFilter.state) :
  0 <= KalmanFilter.errorCovariance f ->
  0 <= KalmanFilter.getConfidence f <= 1.
Proof.
  intro HP. unfold KalmanFilter.getConfidence, Math_max, Math_min.
  split; [apply Rmax_l |].
  apply Rmax_lub; [lra |].
  assert (0 <= Rmin (KalmanFilter.errorCovariance f / 10) 1)
    by (apply Rmin_glb; lra).
  lra.
Qed.

Lemma calculateRssiStability_le_1 (e : DistanceEstimator.state) :
  DistanceEstimator.calculateRssiStability e <= 1.
Proof.
  unfold DistanceEstimator.calculateRssiStability, Math_min, Math_sqrt.
  destruct (length (DistanceEstimator.rawHistory e) <? 3)%nat; [lra |].
  cbv zeta.
  match goal with
  | |- 1 - Rmin (sqrt ?v / 10) 1 <= 1 =>
      pose proof (sqrt_pos v);
      assert (0 <= Rmin (sqrt v / 10) 1) by (apply Rmin_glb; lra)
  end.
  lra.
Qed.

Lemma calculateConfidence_le_1 (e : DistanceEstimator.state) (f d : R) :
  0 < maxReliableDistance (DistanceEstimator.model e) ->
  0 <= KalmanFilter.errorCovariance (DistanceEstimator.kalmanFilter e) ->
  0 <= d ->
  DistanceEstimator.calculateConfidence e f d <= 1.
Proof.
  intros Hrel HP Hd. unfold DistanceEstimator.calculateConfidence. cbv zeta.
  destruct (getConfidence_bounds
              (DistanceEstimator.kalmanFilter e) HP) as [_ Hfilter].
  pose proof (calculateRssiStability_le_1 e) as Hstab.
  assert (Hsample :
            Math_min (INR (length (DistanceEstimator.rawHistory e)) / 10) 1
            <= 1) by apply Rmin_r.
  assert (Hdist :
            (if leb d (maxReliableDistance (DistanceEstimator.model e))
             then 1 - d / maxReliableDistance (DistanceEstimator.model e)
                      * 0.5
             else 0.1) <= 1).
  { destruct (leb d _); [| lra].
    assert (0 <= d / maxReliableDistance (DistanceEstimator.model e))
      by (apply Rmult_le_pos; [lra | apply Rlt_le, Rinv_0_lt_compat; lra]).
    lra. }
  apply Rmult_le_reg_r with 100; [lra |].
  unfold Rdiv. rewrite Rmult_assoc, Rinv_l, Rmult_1_r by lra.
  replace (1 * 100) with (Math_round (IZR 100))
    by (rewrite Math_round_IZR; lra).
  apply Math_round_le. lra.
Qed.

(** X10.  For a reachable estimator whose model has a positive path-loss
    exponent, reference distance and reliable distance, every result of
    [estimateDistance], accepted or rejected, carries a confidence between
    0 and 1, and an accepted one a distance that is not negative. *)
Theorem estimate_confidence_in_unit_interval
  (this : DistanceEstimator.state) (rssi : R) (useFilter : bool) (now : Z) :
  DistanceEstimator.reachable this ->
  well_formed_model (DistanceEstimator.model this) ->
  0 < maxReliableDistance (DistanceEstimator.model this) ->
  let result :=
    snd (DistanceEstimator.estimateDistance this rssi useFilter now) in
  (exists c, DistanceEstimator.confidence_of result = Value c /\ 0 <= c <= 1)
  /\ (forall d, DistanceEstimator.distance_of result = Value d -> 0 <= d).
Proof.
  intros Hreach [Hn Hd0] Hrel result. unfold result.
  destruct (in_range_dec (DistanceEstimator.model this) rssi) as [Hin | Hout].
  - pose proof (reachable_invariant this Hreach) as Hinv.
    pose proof (estimateDistance_keeps_invariant this rssi useFilter now Hinv)
      as (_ & _ & _ & _ & HP').
    pose proof (estimateDistance_model this rssi useFilter now) as Hmodel.
    rewrite (estimateDistance_in_range this rssi useFilter now Hin).
    cbn [DistanceEstimator.confidence_of DistanceEstimator.distance_of].
    match goal with
    | |- context [DistanceEstimator.calculateConfidence _ _ ?dist] =>
        assert (Hdist : 0 <= dist)
    end.
    { apply Rmult_le_pos; [lra |]. unfold Math_pow, Rpower.
      apply Rlt_le, exp_pos. }
    split.
    + eexists. split; [reflexivity |]. split.
      * apply calculateConfidence_nonneg. now rewrite Hmodel.
      * apply calculateConfidence_le_1;
          [now rewrite Hmodel | lra | exact Hdist].
    + intros d Heq. injection Heq as <-.
      apply Rmult_le_pos; [| lra].
      apply Math_round_nonneg, Rmult_le_pos; [exact Hdist | lra].
  - unfold DistanceEstimator.estimateDistance.
    rewrite out_of_range_fails
      by (unfold DistanceEstimator.in_range in Hout; lra).
    cbn. split; [exists 0; split; [reflexivity | lra] | discriminate].
Qed.

Lemma estimate_confidence_in_unit_interval_witness :
  exists c,
    DistanceEstimator.confidence_of
      (snd (DistanceEstimator.estimateDistance
              (DistanceEstimator.new "BLE" None) (-70) true 0%Z))
    = Value c
    /\ 0 <= c <= 1.
Proof.
  apply (estimate_confidence_in_unit_interval
           (DistanceEstimator.new "BLE" None) (-70) true 0%Z).
  - apply DistanceEstimator.reachable_new.
  - unfold well_formed_model. cbn. lra.
  - cbn. lra.
Defined.

Lemma fold_Rmin_spec (l : list R) :
  forall a,
    fold_left Rmin l a <= a
    /\ (forall x, In x l -> fold_left Rmin l a <= x)
    /\ (fold_left Rmin l a = a \/ In (fold_left Rmin l a) l).
Proof.
  induction l as [| y rest IH]; intro a; cbn [fold_left].
  - split; [lra |]. split; [intros x [] | now left].
  - destruct (IH (Rmin a y)) as (Hle & Hall & Hin).
    pose proof (Rmin_l a y). pose proof (Rmin_r a y).
    split; [lra |]. split.
    + intros x [<- | Hx]; [lra | now apply Hall].
    + destruct Hin as [Heq | Hin]; [| right; now right].
      rewrite Heq. unfold Rmin. destruct (Rle_dec a y);
        [now left | right; now left].
Qed.

Lemma fold_Rmax_spec (l : list R) :
  forall a,
    a <= fold_left Rmax l a
    /\ (forall x, In x l -> x <= fold_left Rmax l a)
    /\ (fold_left Rmax l a = a \/ In (fold_left Rmax l a) l).
Proof.
  induction l as [| y rest IH]; intro a; cbn [fold_left].
  - split; [lra |]. split; [intros x [] | now left].
  - destruct (IH (Rmax a y)) as (Hle & Hall & Hin).
    pose proof (Rmax_l a y). pose proof (Rmax_r a y).
    split; [lra |]. split.
    + intros x [<- | Hx]; [lra | now apply Hall].
    + destruct Hin as [Heq | Hin]; [| right; now right].
      rewrite Heq. unfold Rmax. destruct (Rle_dec a y);
        [right; now left | now left].
Qed.

Lemma sum_between (lo hi : R) (l : list R) :
  Forall (fun x => lo <= x <= hi) l ->
  forall acc,
    acc + INR (length l) * lo <= fold_left Rplus l acc
    <= acc + INR (length l) * hi.
Proof.
  induction 1 as [| x rest Hx Hrest IH]; intro acc.
  - cbn. lra.
  - cbn [fold_left length]. rewrite S_INR.
    specialize (IH (acc + x)). lra.
Qed.

(** X11.  When the history is not empty, [getStats ()] reports its length
    as [samples], the smallest and the largest RSSI of the history as [min]
    and [max] (both are readings of the history and bound every reading),
    [range = max - min >= 0], a [mean] between the roundings of [min] and
    [max], and a [stdDev] that is not negative. *)
Theorem getStats_summary_bounds
  (e : DistanceEstimator.state) (n : nat)
  (mean lo hi range stdDev f confidence : R) :
  DistanceEstimator.getStats e
  = DistanceEstimator.Summary n mean lo hi range stdDev f confidence ->
  n = length (DistanceEstimator.rawHistory e)
  /\ (0 < n)%nat
  /\ (forall r, In r (DistanceEstimator.rawHistory e) ->
                lo <= DistanceEstimator.rssi r <= hi)
  /\ (exists r, In r (DistanceEstimator.rawHistory e)
                /\ DistanceEstimator.rssi r = lo)
  /\ (exists r, In r (DistanceEstimator.rawHistory e)
                /\ DistanceEstimator.rssi r = hi)
  /\ range = hi - lo
  /\ 0 <= range
  /\ Math_round (lo * 10) / 10 <= mean <= Math_round (hi * 10) / 10
  /\ 0 <= stdDev.
Proof.
  unfold DistanceEstimator.getStats.
  destruct (DistanceEstimator.rawHistory e) as [| r0 h] eqn:Hh;
    cbn [length Nat.eqb]; [discriminate |].
  intro H. injection H as Hn Hmean Hlo Hhi Hrange Hsd _ _.
  rewrite length_map in Hn. rewrite Hlo, Hhi in Hrange.
  set (values := map DistanceEstimator.rssi (r0 :: h)) in *.
  destruct (fold_Rmin_spec (map DistanceEstimator.rssi h)
                           (DistanceEstimator.rssi r0))
    as (Hmin_a & Hmin_all & Hmin_in).
  destruct (fold_Rmax_spec (map DistanceEstimator.rssi h)
                           (DistanceEstimator.rssi r0))
    as (Hmax_a & Hmax_all & Hmax_in).
  unfold values, Math_min_of in Hlo. unfold values, Math_max_of in Hhi.
  cbn [map] in Hlo, Hhi.
  rewrite Hlo in Hmin_a, Hmin_all, Hmin_in.
  rewrite Hhi in Hmax_a, Hmax_all, Hmax_in.
  assert (Hall : forall r, In r (r0 :: h) ->
                           lo <= DistanceEstimator.rssi r <= hi).
  { intros r [<- | Hr]; [lra |].
    split; [apply Hmin_all | apply Hmax_all]; now apply in_map. }
  split; [now symmetry |]. split; [subst n; cbn; lia |].
  split; [exact Hall |]. split; [| split; [| split; [| split; [| split]]]].
  - destruct Hmin_in as [Heq | Hin].
    + exists r0. split; [now left | now symmetry].
    + apply in_map_iff in Hin. destruct Hin as (r & Hr & Hin).
      exists r. split; [now right | exact Hr].
  - destruct Hmax_in as [Heq | Hin].
    + exists r0. split; [now left | now symmetry].
    + apply in_map_iff in Hin. destruct Hin as (r & Hr & Hin).
      exists r. split; [now right | exact Hr].
  - now symmetry.
  - subst range. lra.
  - assert (Hvals : Forall (fun x => lo <= x <= hi) values).
    { unfold values. apply Forall_forall. intros x Hx.
      change (In x (map DistanceEstimator.rssi (r0 :: h))) in Hx.
      apply in_map_iff in Hx. destruct Hx as (r & <- & Hr). now apply Hall. }
    pose proof (sum_between lo hi values Hvals 0) as Hsum.
    assert (Hlen : 0 < INR (length values))
      by (apply lt_0_INR; unfold values; cbn; lia).
    assert (Hmu : lo <= sum values / INR (length values) <= hi).
    { unfold sum. split.
      - apply Rmult_le_reg_r with (INR (length values)); [exact Hlen |].
        unfold Rdiv. rewrite Rmult_assoc, Rinv_l by lra. lra.
      - apply Rmult_le_reg_r with (INR (length values)); [exact Hlen |].
        unfold Rdiv. rewrite Rmult_assoc, Rinv_l by lra. lra. }
    subst mean. split.
    + apply Rmult_le_compat_r; [lra |]. apply Math_round_le.
      change (lo * 10 <= sum values / INR (length values) * 10). lra.
    + apply Rmult_le_compat_r; [lra |]. apply Math_round_le.
      change (sum values / INR (length values) * 10 <= hi * 10). lra.
  - subst stdDev. apply Rmult_le_pos; [| lra].
    apply Math_round_nonneg. apply Rmult_le_pos; [apply sqrt_pos | lra].
Qed.

Lemma getStats_summary_bounds_witness :
  exists n mean lo hi range stdDev f confidence,
    DistanceEstimator.getStats
      (fst (DistanceEstimator.estimateDistance
              (DistanceEstimator.new "BLE" None) (-59) true 0%Z))
    = DistanceEstimator.Summary n mean lo hi range stdDev f confidence
    /\ (0 < n)%nat
    /\ 0 <= range.
Proof.
  destruct (estimateDistance_accepts
              (DistanceEstimator.new "BLE" None) (-59) true 0%Z
              BLE_reference_in_range) as (_ & _ & Hhist & _).
  destruct (DistanceEstimator.getStats
              (fst (DistanceEstimator.estimateDistance
                      (DistanceEstimator.new "BLE" None) (-59) true 0%Z)))
    as [| n mean lo hi range sd f c] eqn:Hstats.
  - unfold DistanceEstimator.getStats in Hstats. rewrite Hhist in Hstats.
    discriminate.
  - exists n, mean, lo, hi, range, sd, f, c.
    destruct (getStats_summary_bounds _ _ _ _ _ _ _ _ _ Hstats)
      as (_ & Hn & _ & _ & _ & _ & Hrange & _).
    repeat split; assumption.
Defined.

Lemma Math_round_near (x : R) : x - / 2 < Math_round x <= x + / 2.
Proof.
  unfold Math_round. pose proof (Zfloor_bound (x + / 2)). lra.
Qed.

Lemma pow10_log10 (d : R) : 0 < d -> Math_pow 10 (Math_log10 d) = d.
Proof.
  intro Hd. unfold Math_pow, Math_log10, Rpower.
  assert (Hln : ln 10 <> 0).
  { assert (H : ln 1 < ln 10) by (apply ln_increasing; lra).
    rewrite ln_1 in H. lra. }
  replace (ln d / ln 10 * ln 10) with (ln d) by (field; exact Hln).
  now apply exp_ln.
Qed.

(** X12.  Calibration round trip.  For a model with reference distance
    1 m and a positive path-loss exponent [n], after [calibrate] at a
    positive known distance with at least 5 samples whose mean is in the
    valid range, the distance estimated (filter off) for that mean is the
    distance calibrated for, up to the rounding of [referenceRssi] to an
    integer: it lies between the two-decimal roundings of
    [target * 10 ^ (-1 / (20 n))] and [target * 10 ^ (1 / (20 n))], where
    [target] is 1 m when the known distance is within 0.1 of 1 m and the
    known distance otherwise. *)
Theorem calibrate_round_trip
  (this : DistanceEstimator.state) (knownDistance : R) (samples : list R)
  (now : Z) :
  (5 <= length samples)%nat ->
  referenceDistance (DistanceEstimator.model this) = 1 ->
  0 < pathLossExponent (DistanceEstimator.model this) ->
  0 < knownDistance ->
  DistanceEstimator.in_range (DistanceEstimator.model this)
                             (sum samples / INR (length samples)) ->
  let n := pathLossExponent (DistanceEstimator.model this) in
  let mean := sum samples / INR (length samples) in
  let this' := fst (DistanceEstimator.calibrate this knownDistance samples) in
  let target := if ltb (Rabs (knownDistance - 1)) 0.1 then 1
                else knownDistance in
  exists d,
    DistanceEstimator.distance_of
      (snd (DistanceEstimator.estimateDistance this' mean false now))
    = Value d
    /\ round2 (target * Math_pow 10 (- / (20 * n))) <= d
       <= round2 (target * Math_pow 10 (/ (20 * n))).
Proof.
  intros Hlen Hd0 Hn Hkd Hin n mean this' target.
  unfold this'. rewrite (calibrate_enough this knownDistance samples Hlen).
  cbn [fst]. fold mean. fold n.
  replace (knownDistance - 1.0) with (knownDistance - 1) by lra.
  unfold Math_abs. fold target.
  set (ref := if ltb (Rabs (knownDistance - 1)) 0.1
              then Math_round mean
              else Math_round (mean + 10 * n * Math_log10 knownDistance)).
  set (e' := DistanceEstimator.mk _ _ _ _).
  assert (Hin' : DistanceEstimator.in_range (DistanceEstimator.model e') mean)
    by exact Hin.
  rewrite (estimateDistance_in_range e' mean false now Hin').
  cbn [DistanceEstimator.distance_of]. eexists. split; [reflexivity |].
  change (referenceDistance (DistanceEstimator.model e'))
    with (referenceDistance (DistanceEstimator.model this)).
  change (pathLossExponent (DistanceEstimator.model e')) with n.
  change (referenceRssi (DistanceEstimator.model e')) with ref.
  rewrite Hd0, Rmult_1_l.
  assert (Hn' : 0 < n) by exact Hn.
  assert (Hinv : 0 < / (10 * n)) by (apply Rinv_0_lt_compat; lra).
  assert (Hhalf : / (20 * n) = / 2 * / (10 * n)) by (field; lra).
  assert (Hbounds :
            target * Math_pow 10 (- / (20 * n))
            <= Math_pow 10 ((ref - mean) / (10 * n))
            <= target * Math_pow 10 (/ (20 * n))).
  { unfold target, ref.
    destruct (ltb (Rabs (knownDistance - 1)) 0.1).
    - pose proof (Math_round_near mean) as Hr.
      rewrite !Rmult_1_l. unfold Math_pow.
      split; apply Rle_Rpower; try lra; rewrite Hhalf; unfold Rdiv; nra.
    - pose proof (Math_round_near
                    (mean + 10 * n * Math_log10 knownDistance)) as Hr.
      rewrite <- (pow10_log10 knownDistance Hkd) at 1 4.
      unfold Math_pow. rewrite <- !Rpower_plus.
      assert (Hone : 10 * n * / (10 * n) = 1) by (field; lra).
      set (L := Math_log10 knownDistance) in *.
      set (M := Math_round (mean + 10 * n * L)) in *.
      set (i := / (10 * n)) in *.
      assert (HL : 10 * n * L * i = L)
        by (replace (10 * n * L * i) with (L * (10 * n * i)) by ring;
            rewrite Hone; ring).
      split; apply Rle_Rpower; try lra; rewrite Hhalf; unfold Rdiv; fold i.
      + assert (0 <= (M - (mean + 10 * n * L - / 2)) * i)
          by (apply Rmult_le_pos; lra).
        nra.
      + assert (0 <= (mean + 10 * n * L + / 2 - M) * i)
          by (apply Rmult_le_pos; lra).
        nra. }
  unfold round2. split.
  - apply Rmult_le_compat_r; [lra |]. apply Math_round_le. lra.
  - apply Rmult_le_compat_r; [lra |]. apply Math_round_le. lra.
Qed.

Lemma calibrate_round_trip_witness :
  exists d,
    DistanceEstimator.distance_of
      (snd (DistanceEstimator.estimateDistance
              (fst (DistanceEstimator.calibrate
                      (DistanceEstimator.new "BLE" None) 10
                      five_at_minus_50))
              (sum five_at_minus_50 / INR (length five_at_minus_50))
              false 0%Z))
    = Value d
    /\ round2 ((if ltb (Rabs (10 - 1)) 0.1 then 1 else 10)
               * Math_pow 10 (- / (20 * 2.0))) <= d
       <= round2 ((if ltb (Rabs (10 - 1)) 0.1 then 1 else 10)
                  * Math_pow 10 (/ (20 * 2.0))).
Proof.
  apply (calibrate_round_trip
           (DistanceEstimator.new "BLE" None) 10 five_at_minus_50 0%Z).
  - cbn. lia.
  - cbn. lra.
  - cbn. lra.
  - lra.
  - unfold five_at_minus_50.
    change (length [-50; -50; -50; -50; -50]) with 5%nat.
    rewrite sum_five. unfold DistanceEstimator.in_range. cbn. lra.
Defined.

(** ** MultiRadioEstimator *)



Lemma set_absent {A : Type} (key : string) (v : A)
                 (obj : list (string * A)) :
  MultiRadioEstimator.get key obj = None ->
  MultiRadioEstimator.set key v obj = obj ++ [(key, v)].
Proof.
  induction obj as [| [k x] rest IH]; cbn; [reflexivity |].
  destruct (String.eqb k key); [discriminate |].
  intro H. now rewrite IH.
Qed.

Lemma set_present_keys {A : Type} (key : string) (v old : A)
                       (obj : list (string * A)) :
  MultiRadioEstimator.get key obj = Some old ->
  map fst (MultiRadioEstimator.set key v obj) = map fst obj.
Proof.
  induction obj as [| [k x] rest IH]; cbn; [discriminate |].
  destruct (String.eqb k key); [reflexivity |].
  intro H. cbn. now rewrite IH.
Qed.




Lemma visit_sources_shape
  (this : MultiRadioEstimator.state) (radioType : string)
  (e : DistanceEstimator.state) (now : Z) :
  snd (MultiRadioEstimator.visit this radioType e now) = []
  \/ exists d c,
       snd (MultiRadioEstimator.visit this radioType e now)
       = [MultiRadioEstimator.mkSource
            radioType d c (MultiRadioEstimator.weight_for this radioType)].
Proof.
  rewrite visit_unfold.
  destruct (length (DistanceEstimator.rawHistory e) =? 0)%nat;
    [now left |].
  cbv zeta. cbn [snd].
  destruct (DistanceEstimator.distance_of _) as [| | d]; [now left .. |].
  destruct (DistanceEstimator.confidence_of _) as [| | c]; [now left .. |].
  right. now exists d, c.
Qed.

Lemma visit_all_shape
  (this : MultiRadioEstimator.state)
  (entries : list (string * DistanceEstimator.state)) :
  forall (clock : nat -> Z) (i : nat),
    map fst (fst (MultiRadioEstimator.visit_all this entries clock i))
    = map fst entries
    /\ (length (snd (MultiRadioEstimator.visit_all this entries clock i))
        <= length entries)%nat
    /\ Forall (fun s =>
                 In (MultiRadioEstimator.radioType s) (map fst entries)
                 /\ MultiRadioEstimator.weight s
                    = MultiRadioEstimator.weight_for
                        this (MultiRadioEstimator.radioType s))
              (snd (MultiRadioEstimator.visit_all this entries clock i)).
Proof.
  induction entries as [| [radioType e] rest IH]; intros clock i.
  - cbn. repeat split; constructor.
  - rewrite visit_all_cons. cbn [fst snd map length].
    destruct (IH clock (S i)) as (Hkeys & Hlen & Hall).
    split; [now rewrite Hkeys |].
    destruct (visit_sources_shape this radioType e (clock i))
      as [Hnil | (d & c & Hone)].
    + rewrite Hnil. cbn [app]. split; [lia |].
      eapply Forall_impl; [| exact Hall].
      intros s [Hin Hw]. split; [now right | exact Hw].
    + rewrite Hone. cbn [app length]. split; [lia |].
      constructor; [cbn; split; [now left | reflexivity] |].
      eapply Forall_impl; [| exact Hall].
      intros s [Hin Hw]. split; [now right | exact Hw].
Qed.

Lemma getFusedEstimate_fusionWeights
  (this : MultiRadioEstimator.state) (clock : nat -> Z) :
  MultiRadioEstimator.fusionWeights
    (fst (MultiRadioEstimator.getFusedEstimate this clock))
  = MultiRadioEstimator.fusionWeights this.
Proof.
  unfold MultiRadioEstimator.getFusedEstimate.
  destruct (MultiRadioEstimator.visit_all _ _ clock 0) as [entries' sources].
  destruct (length sources =? 0)%nat; [reflexivity |].
  destruct (fold_left MultiRadioEstimator.accumulate sources (0, 0, 0))
    as [[tw wd] mc].
  reflexivity.
Qed.


(** X15.  [getFusedEstimate] neither adds nor removes an estimator and
    leaves the fusion weights alone; the number of sources it reports is
    the length of the breakdown and at most the number of estimators;
    every source of the breakdown is one of the radio types held, with the
    fusion weight of that radio type. *)
Theorem getFusedEstimate_sources_are_estimators
  (this : MultiRadioEstimator.state) (clock : nat -> Z) :
  let this' := fst (MultiRadioEstimator.getFusedEstimate this clock) in
  let r := snd (MultiRadioEstimator.getFusedEstimate this clock) in
  map fst (MultiRadioEstimator.estimators this')
  = map fst (MultiRadioEstimator.estimators this)
  /\ MultiRadioEstimator.fusionWeights this'
     = MultiRadioEstimator.fusionWeights this
  /\ (MultiRadioEstimator.fused_sources r
      <= length (MultiRadioEstimator.estimators this))%nat
  /\ (forall b,
         MultiRadioEstimator.fused_breakdown r = Value b ->
         MultiRadioEstimator.fused_sources r = length b
         /\ forall s,
              In s b ->
              In (MultiRadioEstimator.radioType s)
                 (map fst (MultiRadioEstimator.estimators this))
              /\ MultiRadioEstimator.weight s
                 = MultiRadioEstimator.weight_for
                     this (MultiRadioEstimator.radioType s)).
Proof.
  intros this' r. unfold this', r.
  destruct (visit_all_shape this (MultiRadioEstimator.estimators this)
                            clock 0) as (Hkeys & Hlen & Hall).
  split; [now rewrite getFusedEstimate_estimators |].
  split; [apply getFusedEstimate_fusionWeights |].
  destruct (snd (MultiRadioEstimator.visit_all
                   this (MultiRadioEstimator.estimators this) clock 0))
    as [| s0 rest] eqn:Hsrc.
  - rewrite (getFusedEstimate_none this clock Hsrc). cbn.
    split; [lia | discriminate].
  - destruct (getFusedEstimate_fused this clock) as [d Hfused];
      [rewrite Hsrc; discriminate |].
    rewrite Hsrc in Hfused. rewrite Hfused.
    cbn [MultiRadioEstimator.fused_sources
         MultiRadioEstimator.fused_breakdown].
    split; [exact Hlen |].
    intros b Hb. injection Hb as <-. split; [reflexivity |].
    rewrite Forall_forall in Hall. exact Hall.
Qed.

Lemma visit_all_empty
  (this : MultiRadioEstimator.state)
  (entries : list (string * DistanceEstimator.state)) :
  forall (clock : nat -> Z) (i : nat),
    Forall (fun entry => DistanceEstimator.rawHistory (snd entry) = [])
           entries ->
    MultiRadioEstimator.visit_all this entries clock i = (entries, []).
Proof.
  induction entries as [| [radioType e] rest IH]; intros clock i Hall;
    [reflexivity |].
  inversion Hall as [| ? ? He Hrest]; subst. cbn [snd] in He.
  rewrite visit_all_cons, IH by exact Hrest.
  rewrite visit_skips by (left; exact He). reflexivity.
Qed.

(** X16.  Right after [reset ()], and on a new fusion estimator,
    [getFusedEstimate ()] returns
    [{ distance: null, confidence: 0, sources: 0,
       error: "No valid estimates available" }] and changes nothing. *)
Theorem getFusedEstimate_after_reset
  (this : MultiRadioEstimator.state) (clock : nat -> Z) :
  MultiRadioEstimator.getFusedEstimate (MultiRadioEstimator.reset this) clock
  = (MultiRadioEstimator.reset this,
     MultiRadioEstimator.NoEstimates 0 0 "No valid estimates available")
  /\ MultiRadioEstimator.getFusedEstimate MultiRadioEstimator.new clock
     = (MultiRadioEstimator.new,
        MultiRadioEstimator.NoEstimates 0 0 "No valid estimates available").
Proof.
  split; [| reflexivity].
  unfold MultiRadioEstimator.getFusedEstimate.
  rewrite visit_all_empty.
  - reflexivity.
  - cbn. apply Forall_map, Forall_forall. intros entry _. reflexivity.
Qed.







Lemma one_BLE_reading_reachable :
  MultiRadioEstimator.reachable one_BLE_reading.
Proof. apply MultiRadioEstimator.reachable_call. constructor. Qed.





Lemma record_in_range (e : DistanceEstimator.state) (rssi : R) (now : Z) :
  history_in_range e ->
  DistanceEstimator.in_range (DistanceEstimator.model e) rssi ->
  Forall (fun r => DistanceEstimator.in_range (DistanceEstimator.model e)
                                              (DistanceEstimator.rssi r))
         (DistanceEstimator.record e rssi now).
Proof.
  intros Hhist Hin. unfold DistanceEstimator.record.
  assert (Hpushed :
            Forall (fun r => DistanceEstimator.in_range
                               (DistanceEstimator.model e)
                               (DistanceEstimator.rssi r))
                   (DistanceEstimator.rawHistory e
                    ++ [DistanceEstimator.mkReading rssi now])).
  { apply Forall_app. split; [exact Hhist |].
    constructor; [exact Hin | constructor]. }
  destruct (_ <? _)%nat; [| exact Hpushed].
  destruct (DistanceEstimator.rawHistory e
            ++ [DistanceEstimator.mkReading rssi now]) as [| r rest];
    [constructor |].
  now inversion Hpushed.
Qed.

Lemma estimateDistance_keeps_history_in_range
  (e : DistanceEstimator.state) (rssi : R) (useFilter : bool) (now : Z) :
  history_in_range e ->
  history_in_range
    (fst (DistanceEstimator.estimateDistance e rssi useFilter now)).
Proof.
  intro Hhist.
  destruct (in_range_dec (DistanceEstimator.model e) rssi) as [Hin | Hout].
  - destruct (estimateDistance_accepts e rssi useFilter now Hin)
      as (Hmodel & _ & Hrec & _).
    unfold history_in_range. rewrite Hmodel, Hrec.
    now apply record_in_range.
  - unfold DistanceEstimator.estimateDistance.
    rewrite out_of_range_fails
      by (unfold DistanceEstimator.in_range in Hout; lra).
    exact Hhist.
Qed.

Lemma visit_all_Forall
  (P : DistanceEstimator.state -> Prop) (this : MultiRadioEstimator.state)
  (entries : list (string * DistanceEstimator.state)) :
  (forall radioType e now,
      P e -> P (fst (MultiRadioEstimator.visit this radioType e now))) ->
  forall (clock : nat -> Z) (i : nat),
    Forall (fun entry => P (snd entry)) entries ->
    Forall (fun entry => P (snd entry))
           (fst (MultiRadioEstimator.visit_all this entries clock i)).
Proof.
  intro Hstep.
  induction entries as [| [radioType e] rest IH]; intros clock i Hall.
  - constructor.
  - inversion Hall as [| ? ? He Hrest]; subst.
    rewrite visit_all_cons. cbn [fst]. constructor.
    + cbn [snd] in *. now apply Hstep.
    + now apply IH.
Qed.

Lemma reachable_histories_in_range (this : MultiRadioEstimator.state) :
  MultiRadioEstimator.reachable this ->
  Forall (fun entry => history_in_range (snd entry))
         (MultiRadioEstimator.estimators this).
Proof.
  induction 1 as [| this c Hreach IH]; [constructor |].
  destruct c as [radioType rssi now | clock |];
    cbn [MultiRadioEstimator.perform].
  - rewrite addReading_estimators.
    destruct (MultiRadioEstimator.get
                radioType (MultiRadioEstimator.estimators this))
      as [e |] eqn:Hget.
    + apply set_Forall; [exact IH |].
      apply estimateDistance_keeps_history_in_range.
      exact (get_Forall history_in_range radioType e _ IH Hget).
    + apply set_Forall.
      * apply set_Forall; [exact IH | constructor].
      * apply estimateDistance_keeps_history_in_range. constructor.
  - rewrite getFusedEstimate_estimators.
    apply visit_all_Forall; [| exact IH].
    intros radioType e now He. rewrite visit_unfold.
    destruct (length (DistanceEstimator.rawHistory e) =? 0)%nat;
      [exact He |].
    cbn [fst]. now apply estimateDistance_keeps_history_in_range.
  - cbn. apply Forall_map, Forall_forall. intros entry _. constructor.
Qed.

Lemma getStats_extremes
  (e : DistanceEstimator.state) (n : nat)
  (mean lo hi range stdDev f confidence : R) :
  DistanceEstimator.getStats e
  = DistanceEstimator.Summary n mean lo hi range stdDev f confidence ->
  (exists r, In r (DistanceEstimator.rawHistory e)
             /\ DistanceEstimator.rssi r = lo)
  /\ (exists r, In r (DistanceEstimator.rawHistory e)
                /\ DistanceEstimator.rssi r = hi).
Proof.
  unfold DistanceEstimator.getStats.
  destruct (DistanceEstimator.rawHistory e) as [| r0 h] eqn:Hh;
    cbn [length Nat.eqb]; [discriminate |].
  intro H. injection H as _ _ Hlo Hhi _ _ _ _.
  unfold Math_min_of in Hlo. unfold Math_max_of in Hhi.
  cbn [map] in Hlo, Hhi.
  destruct (fold_Rmin_spec (map DistanceEstimator.rssi h)
                           (DistanceEstimator.rssi r0)) as (_ & _ & Hmin).
  destruct (fold_Rmax_spec (map DistanceEstimator.rssi h)
                           (DistanceEstimator.rssi r0)) as (_ & _ & Hmax).
  rewrite Hlo in Hmin. rewrite Hhi in Hmax. split.
  - destruct Hmin as [Heq | Hin].
    + exists r0. split; [now left | now symmetry].
    + apply in_map_iff in Hin. destruct Hin as (r & Hr & Hin).
      exists r. split; [now right | exact Hr].
  - destruct Hmax as [Heq | Hin].
    + exists r0. split; [now left | now symmetry].
    + apply in_map_iff in Hin. destruct Hin as (r & Hr & Hin).
      exists r. split; [now right | exact Hr].
Qed.

(** X19.  The estimators of a reachable fusion estimator never hold a
    reading outside the valid range of their model (neither a raw reading
    of [addReading] nor a filtered value pushed by [getFusedEstimate]), so
    the [min] and [max] of [getStats ()] are inside it too. *)
Theorem fusion_histories_stay_in_range
  (this : MultiRadioEstimator.state) (radioType : string)
  (e : DistanceEstimator.state) :
  MultiRadioEstimator.reachable this ->
  MultiRadioEstimator.get radioType (MultiRadioEstimator.estimators this)
  = Some e ->
  history_in_range e
  /\ forall n mean lo hi range stdDev f confidence,
       DistanceEstimator.getStats e
       = DistanceEstimator.Summary n mean lo hi range stdDev f confidence ->
       minRssi (DistanceEstimator.model e) <= lo
       /\ hi <= maxRssi (DistanceEstimator.model e).
Proof.
  intros Hreach Hget.
  pose proof (get_Forall history_in_range radioType e _
                         (reachable_histories_in_range this Hreach) Hget)
    as Hhist.
  split; [exact Hhist |].
  intros n mean lo hi range stdDev f confidence Hstats.
  destruct (getStats_extremes _ _ _ _ _ _ _ _ _ Hstats)
    as ((rlo & Hinlo & <-) & (rhi & Hinhi & <-)).
  unfold history_in_range in Hhist. rewrite Forall_forall in Hhist.
  destruct (Hhist rlo Hinlo) as [Hlo _].
  destruct (Hhist rhi Hinhi) as [_ Hhi].
  split; assumption.
Qed.

Lemma fusion_histories_stay_in_range_witness :
  exists e,
    MultiRadioEstimator.get
      "BLE" (MultiRadioEstimator.estimators one_BLE_reading) = Some e
    /\ history_in_range e.
Proof.
  destruct one_BLE_reading_estimators as (b & Hest & _).
  assert (Hget : MultiRadioEstimator.get
                   "BLE" (MultiRadioEstimator.estimators one_BLE_reading)
                 = Some b) by (rewrite Hest; reflexivity).
  exists b. split; [exact Hget |].
  apply (fusion_histories_stay_in_range
           one_BLE_reading "BLE" b one_BLE_reading_reachable Hget).
Defined.

(** ** RFParty.updateRssiDisplay *)

Lemma updateRssiDisplay_unfold
  (e : DistanceEstimator.state) (bestRssi worstRssi : option R)
  (clock : nat -> Z) :
  let e1 :=
    match bestRssi with
    | Some r => fst (DistanceEstimator.estimateDistance e r false
                                                        (clock 0%nat))
    | None => e
    end in
  let e2 :=
    match worstRssi with
    | Some r => fst (DistanceEstimator.estimateDistance e1 r false
                                                        (clock 1%nat))
    | None => e1
    end in
  let e3 :=
    match bestRssi with
    | Some r => fst (DistanceEstimator.estimateDistance e2 r false
                                                        (clock 2%nat))
    | None => e2
    end in
  RFParty.updateRssiDisplay e bestRssi worstRssi clock
  = (e3,
     RFParty.mkPanel
       match bestRssi with
       | Some r => RFParty.RssiNumber r
       | None => RFParty.Dashes
       end
       match bestRssi with
       | Some r => String.append "rssi-value " (RFParty.getRssiStrengthClass r)
       | None => "rssi-value"%string
       end
       match bestRssi with
       | Some r =>
           RFParty.distance_text
             (snd (DistanceEstimator.estimateDistance e r false
                                                      (clock 0%nat)))
       | None => RFParty.NoDistance
       end
       match worstRssi with
       | Some r => RFParty.RssiNumber r
       | None => RFParty.Dashes
       end
       match worstRssi with
       | Some r => String.append "rssi-value " (RFParty.getRssiStrengthClass r)
       | None => "rssi-value"%string
       end
       match worstRssi with
       | Some r =>
           RFParty.distance_text
             (snd (DistanceEstimator.estimateDistance e1 r false
                                                      (clock 1%nat)))
       | None => RFParty.NoDistance
       end
       match bestRssi with
       | Some r =>
           RFParty.reliability_note
             (snd (DistanceEstimator.estimateDistance e2 r false
                                                      (clock 2%nat)))
       | None => RFParty.NoNote
       end).
Proof.
  unfold RFParty.updateRssiDisplay.
  destruct bestRssi as [best |], worstRssi as [worst |]; cbv zeta.
  - destruct (DistanceEstimator.estimateDistance e best false (clock 0%nat))
      as [e1 r1]. cbn [fst snd].
    destruct (DistanceEstimator.estimateDistance e1 worst false (clock 1%nat))
      as [e2 r2]. cbn [fst snd].
    destruct (DistanceEstimator.estimateDistance e2 best false (clock 2%nat))
      as [e3 r3]. reflexivity.
  - destruct (DistanceEstimator.estimateDistance e best false (clock 0%nat))
      as [e1 r1]. cbn [fst snd].
    destruct (DistanceEstimator.estimateDistance e1 best false (clock 2%nat))
      as [e3 r3]. reflexivity.
  - destruct (DistanceEstimator.estimateDistance e worst false (clock 1%nat))
      as [e2 r2]. reflexivity.
  - reflexivity.
Qed.

Lemma unfiltered_keeps_filter
  (e : DistanceEstimator.state) (rssi : R) (now : Z) :
  DistanceEstimator.kalmanFilter
    (fst (DistanceEstimator.estimateDistance e rssi false now))
  = DistanceEstimator.kalmanFilter e.
Proof.
  unfold DistanceEstimator.estimateDistance.
  destruct (ltb rssi _ || ltb _ rssi); reflexivity.
Qed.

Lemma panel_estimator_invariant (e : DistanceEstimator.state) :
  RFParty.reachable e ->
  DistanceEstimator.reachable e
  /\ DistanceEstimator.model e = SignalModels.BLE
  /\ DistanceEstimator.kalmanFilter e
     = DistanceEstimator.kalmanFilter RFParty.distanceEstimator.
Proof.
  induction 1 as [| e bestRssi worstRssi clock Hreach (IHr & IHm & IHf)].
  - split; [apply DistanceEstimator.reachable_new | split; reflexivity].
  - pose proof (updateRssiDisplay_unfold e bestRssi worstRssi clock) as Hu.
    cbv zeta in Hu. rewrite Hu. cbn [fst].
    assert (Hstep : forall x rssi now,
               DistanceEstimator.reachable x
               /\ DistanceEstimator.model x = SignalModels.BLE
               /\ DistanceEstimator.kalmanFilter x
                  = DistanceEstimator.kalmanFilter RFParty.distanceEstimator ->
               DistanceEstimator.reachable
                 (fst (DistanceEstimator.estimateDistance x rssi false now))
               /\ DistanceEstimator.model
                    (fst (DistanceEstimator.estimateDistance x rssi false now))
                  = SignalModels.BLE
               /\ DistanceEstimator.kalmanFilter
                    (fst (DistanceEstimator.estimateDistance x rssi false now))
                  = DistanceEstimator.kalmanFilter
                      RFParty.distanceEstimator).
    { intros x rssi now (Hr & Hm & Hf). split; [| split].
      - exact (DistanceEstimator.reachable_call
                 x (DistanceEstimator.CallEstimateDistance rssi false now) Hr).
      - now rewrite estimateDistance_model.
      - now rewrite unfiltered_keeps_filter. }
    destruct bestRssi as [best |], worstRssi as [worst |];
      repeat apply Hstep; auto.
Qed.

(** X20.  The estimator behind the device panel is only ever called with
    the filter off: whatever the panel has shown before, its model is the
    BLE model, its filter is still the one the constructor built (estimate
    -59, error covariance 1, no sample) and its history holds at most 50
    readings. *)
Theorem panel_estimator_never_filters (e : DistanceEstimator.state) :
  RFParty.reachable e ->
  DistanceEstimator.model e = SignalModels.BLE
  /\ DistanceEstimator.kalmanFilter e = KalmanFilter.new 0.125 4 (-59) 1
  /\ (length (DistanceEstimator.rawHistory e) <= 50)%nat.
Proof.
  intro Hreach.
  destruct (panel_estimator_invariant e Hreach) as (Hr & Hm & Hf).
  split; [exact Hm |]. split; [exact Hf |].
  now destruct (reachable_invariant e Hr) as (_ & Hlen & _).
Qed.

Lemma panel_estimator_never_filters_witness :
  DistanceEstimator.kalmanFilter
    (fst (RFParty.updateRssiDisplay RFParty.distanceEstimator
                                    (Some (-60)) (Some (-80)) Z.of_nat))
  = KalmanFilter.new 0.125 4 (-59) 1.
Proof.
  apply (panel_estimator_never_filters
           (fst (RFParty.updateRssiDisplay RFParty.distanceEstimator
                                           (Some (-60)) (Some (-80))
                                           Z.of_nat))).
  apply RFParty.reachable_refresh, RFParty.reachable_new.
Defined.

(** X21.  One refresh of the panel with a best and a worst RSSI that are
    both numbers in the BLE range pushes three readings on the history of
    the shared estimator: best, worst and best again (oldest readings
    dropped beyond 50). *)
Theorem panel_refresh_records_three_readings
  (e : DistanceEstimator.state) (best worst : R) (clock : nat -> Z) :
  RFParty.reachable e ->
  DistanceEstimator.in_range SignalModels.BLE best ->
  DistanceEstimator.in_range SignalModels.BLE worst ->
  DistanceEstimator.rawHistory
    (fst (RFParty.updateRssiDisplay e (Some best) (Some worst) clock))
  = lastn 50 (DistanceEstimator.rawHistory e
              ++ [DistanceEstimator.mkReading best (clock 0%nat);
                  DistanceEstimator.mkReading worst (clock 1%nat);
                  DistanceEstimator.mkReading best (clock 2%nat)]).
Proof.
  intros Hreach Hbest Hworst.
  destruct (panel_estimator_invariant e Hreach) as (Hr & Hm & _).
  pose proof (updateRssiDisplay_unfold e (Some best) (Some worst) clock)
    as Hu.
  cbv zeta in Hu. rewrite Hu. cbn [fst]. clear Hu.
  assert (Hstep : forall x rssi now,
             DistanceEstimator.reachable x ->
             DistanceEstimator.model x = SignalModels.BLE ->
             DistanceEstimator.in_range SignalModels.BLE rssi ->
             DistanceEstimator.rawHistory
               (fst (DistanceEstimator.estimateDistance x rssi false now))
             = lastn 50 (DistanceEstimator.rawHistory x
                         ++ [DistanceEstimator.mkReading rssi now])).
  { intros x rssi now Hx Hmx Hin. rewrite <- Hmx in Hin.
    destruct (estimateDistance_accepts x rssi false now Hin)
      as (_ & _ & Hrec & _).
    destruct (reachable_invariant x Hx) as (Hmax & Hlen & _).
    rewrite Hrec. now apply record_lastn. }
  set (e1 := fst (DistanceEstimator.estimateDistance e best false
                                                     (clock 0%nat))).
  set (e2 := fst (DistanceEstimator.estimateDistance e1 worst false
                                                     (clock 1%nat))).
  assert (Hr1 : DistanceEstimator.reachable e1)
    by exact (DistanceEstimator.reachable_call
                e (DistanceEstimator.CallEstimateDistance
                     best false (clock 0%nat)) Hr).
  assert (Hm1 : DistanceEstimator.model e1 = SignalModels.BLE)
    by (unfold e1; now rewrite estimateDistance_model).
  assert (Hr2 : DistanceEstimator.reachable e2)
    by exact (DistanceEstimator.reachable_call
                e1 (DistanceEstimator.CallEstimateDistance
                      worst false (clock 1%nat)) Hr1).
  assert (Hm2 : DistanceEstimator.model e2 = SignalModels.BLE)
    by (unfold e2; now rewrite estimateDistance_model).
  rewrite (Hstep e2 best (clock 2%nat) Hr2 Hm2 Hbest).
  unfold e2. rewrite (Hstep e1 worst (clock 1%nat) Hr1 Hm1 Hworst).
  unfold e1. rewrite (Hstep e best (clock 0%nat) Hr Hm Hbest).
  rewrite lastn_lastn_app, <- app_assoc, lastn_lastn_app, <- app_assoc.
  reflexivity.
Qed.

Lemma panel_refresh_records_three_readings_witness :
  DistanceEstimator.rawHistory
    (fst (RFParty.updateRssiDisplay RFParty.distanceEstimator
                                    (Some (-60)) (Some (-80)) Z.of_nat))
  = lastn 50 (DistanceEstimator.rawHistory RFParty.distanceEstimator
              ++ [DistanceEstimator.mkReading (-60) (Z.of_nat 0);
                  DistanceEstimator.mkReading (-80) (Z.of_nat 1);
                  DistanceEstimator.mkReading (-60) (Z.of_nat 2)]).
Proof.
  apply (panel_refresh_records_three_readings
           RFParty.distanceEstimator (-60) (-80) Z.of_nat).
  - apply RFParty.reachable_new.
  - unfold DistanceEstimator.in_range. cbn. lra.
  - unfold DistanceEstimator.in_range. cbn. lra.
Defined.

Lemma panel_step_model (x : DistanceEstimator.state) (rssi : option R)
                       (now : Z) :
  DistanceEstimator.model x = SignalModels.BLE ->
  DistanceEstimator.model
    match rssi with
    | Some r => fst (DistanceEstimator.estimateDistance x r false now)
    | None => x
    end
  = SignalModels.BLE.
Proof.
  intro Hm. destruct rssi; [now rewrite estimateDistance_model | exact Hm].
Qed.

Lemma BLE_rejects (x : DistanceEstimator.state) (rssi : R) (now : Z) :
  DistanceEstimator.model x = SignalModels.BLE ->
  rssi < -100 \/ -20 < rssi ->
  snd (DistanceEstimator.estimateDistance x rssi false now)
  = DistanceEstimator.OutOfRange 0 rssi rssi "RSSI out of valid range".
Proof.
  intros Hm Hout. unfold DistanceEstimator.estimateDistance.
  rewrite out_of_range_fails by (rewrite Hm; exact Hout). reflexivity.
Qed.

(** X22.  When the best RSSI is a number outside the BLE range, the panel
    shows no best distance and the warning "Weak signal - estimate may be
    inaccurate", because the rejection object carries no [reliable]
    property; this is also what happens for a signal stronger than
    -20 dBm, which the panel styles as "strong". *)
Theorem panel_out_of_range_shows_weak_signal
  (e : DistanceEstimator.state) (best : R) (worstRssi : option R)
  (clock : nat -> Z) :
  RFParty.reachable e ->
  best < -100 \/ -20 < best ->
  let panel :=
    snd (RFParty.updateRssiDisplay e (Some best) worstRssi clock) in
  RFParty.bestDistText panel = RFParty.NoDistance
  /\ RFParty.confidenceNote panel = RFParty.WeakSignal
  /\ (-20 < best ->
      RFParty.bestRssiClassName panel = "rssi-value strong"%string).
Proof.
  intros Hreach Hout panel.
  destruct (panel_estimator_invariant e Hreach) as (_ & Hm & _).
  pose proof (updateRssiDisplay_unfold e (Some best) worstRssi clock) as Hu.
  cbv zeta in Hu. unfold panel. rewrite Hu. clear Hu.
  cbn [snd RFParty.bestDistText RFParty.confidenceNote
       RFParty.bestRssiClassName].
  rewrite (BLE_rejects e best (clock 0%nat) Hm Hout).
  rewrite BLE_rejects; [| | exact Hout].
  - split; [reflexivity |]. split; [reflexivity |].
    intro Hstrong. unfold RFParty.getRssiStrengthClass.
    rewrite leb_true by lra. reflexivity.
  - apply panel_step_model. now rewrite estimateDistance_model.
Qed.

Lemma panel_out_of_range_shows_weak_signal_witness :
  RFParty.confidenceNote
    (snd (RFParty.updateRssiDisplay RFParty.distanceEstimator
                                    (Some (-10)) None Z.of_nat))
  = RFParty.WeakSignal
  /\ RFParty.bestRssiClassName
       (snd (RFParty.updateRssiDisplay RFParty.distanceEstimator
                                       (Some (-10)) None Z.of_nat))
     = "rssi-value strong"%string.
Proof.
  destruct (panel_out_of_range_shows_weak_signal
              RFParty.distanceEstimator (-10) None Z.of_nat)
    as (_ & Hnote & Hclass).
  - apply RFParty.reachable_new.
  - right. lra.
  - split; [exact Hnote | apply Hclass; lra].
Defined.

Lemma pow10_11_20 : Math_pow 10 (11 / 20) <= 4.
Proof.
  unfold Math_pow.
  assert (H10 : Rpower 10 (11 / 20) = Rpower (10 ^ 11) (/ 20)).
  { rewrite <- (Rpower_pow 11 10) by lra. rewrite Rpower_mult.
    f_equal. replace (INR 11) with 11 by (cbn; lra). lra. }
  assert (H4 : 4 = Rpower (4 ^ 20) (/ 20)).
  { rewrite <- (Rpower_pow 20 4) by lra. rewrite Rpower_mult.
    replace (INR 20 * / 20) with 1 by (cbn; lra).
    now rewrite Rpower_1 by lra. }
  rewrite H10, H4 at 1.
  apply Rle_Rpower_l; [lra |]. cbn [pow]. lra.
Qed.

(** X23.  When the best RSSI is a number in the BLE range that the panel
    styles as "strong" or "medium" (at least -70 dBm), the panel shows a
    best distance between 0 and 4 m and the note "Estimate based on BLE
    signal strength", never the weak-signal warning, whatever it showed
    before. *)
Theorem panel_strong_or_medium_is_reliable
  (e : DistanceEstimator.state) (best : R) (worstRssi : option R)
  (clock : nat -> Z) :
  RFParty.reachable e ->
  -70 <= best <= -20 ->
  let panel :=
    snd (RFParty.updateRssiDisplay e (Some best) worstRssi clock) in
  (RFParty.getRssiStrengthClass best = "strong"%string
   \/ RFParty.getRssiStrengthClass best = "medium"%string)
  /\ RFParty.confidenceNote panel = RFParty.BasedOnSignal
  /\ exists d,
       RFParty.bestDistText panel = RFParty.Approximately d
       /\ 0 <= d <= 4.
Proof.
  intros Hreach Hbest panel.
  destruct (panel_estimator_invariant e Hreach) as (_ & Hm & _).
  pose proof (updateRssiDisplay_unfold e (Some best) worstRssi clock) as Hu.
  cbv zeta in Hu. unfold panel. rewrite Hu. clear Hu.
  cbn [snd RFParty.bestDistText RFParty.confidenceNote].
  set (e2 := match worstRssi with
             | Some r => fst (DistanceEstimator.estimateDistance _ r false _)
             | None => _
             end).
  assert (Hm2 : DistanceEstimator.model e2 = SignalModels.BLE)
    by (apply panel_step_model; now rewrite estimateDistance_model).
  assert (Hin : DistanceEstimator.in_range (DistanceEstimator.model e) best)
    by (rewrite Hm; unfold DistanceEstimator.in_range; cbn; lra).
  assert (Hin2 : DistanceEstimator.in_range (DistanceEstimator.model e2) best)
    by (rewrite Hm2; unfold DistanceEstimator.in_range; cbn; lra).
  rewrite (estimateDistance_in_range e best false (clock 0%nat) Hin).
  rewrite (estimateDistance_in_range e2 best false (clock 2%nat) Hin2).
  rewrite Hm, Hm2.
  cbn [referenceDistance referenceRssi pathLossExponent maxReliableDistance
       SignalModels.BLE].
  assert (Hraw : 0 <= 1.0 * Math_pow 10 ((-59 - best) / (10 * 2.0)) <= 4).
  { split.
    - apply Rmult_le_pos; [lra |]. unfold Math_pow, Rpower.
      apply Rlt_le, exp_pos.
    - eapply Rle_trans; [| exact pow10_11_20].
      replace (1.0 * Math_pow 10 ((-59 - best) / (10 * 2.0)))
        with (Math_pow 10 ((-59 - best) / (10 * 2.0))) by lra.
      unfold Math_pow. apply Rle_Rpower; lra. }
  split; [| split].
  - unfold RFParty.getRssiStrengthClass, leb.
    destruct (Rle_dec (-50) best); [now left |].
    destruct (Rle_dec (-70) best); [now right | lra].
  - unfold RFParty.reliability_note.
    cbn [DistanceEstimator.reliable_of]. now rewrite leb_true by lra.
  - unfold RFParty.distance_text. cbn [DistanceEstimator.distance_of].
    eexists. split; [reflexivity |]. split.
    + apply Rmult_le_pos; [| lra].
      apply Math_round_nonneg, Rmult_le_pos; lra.
    + apply Rmult_le_reg_r with 100; [lra |].
      unfold Rdiv. rewrite Rmult_assoc, Rinv_l, Rmult_1_r by lra.
      replace (4 * 100) with (Math_round (IZR 400))
        by (rewrite Math_round_IZR; lra).
      apply Math_round_le. lra.
Qed.

Lemma panel_strong_or_medium_is_reliable_witness :
  RFParty.confidenceNote
    (snd (RFParty.updateRssiDisplay RFParty.distanceEstimator
                                    (Some (-60)) None Z.of_nat))
  = RFParty.BasedOnSignal.
Proof.
  apply (panel_strong_or_medium_is_reliable
           RFParty.distanceEstimator (-60) None Z.of_nat).
  - apply RFParty.reachable_new.
  - lra.
Defined.

(** ** Every estimator with samples contributes to the fusion *)












(** ** updateModel, and the keys of the fusion estimator *)

(** X25.  [updateModel] touches the model only (filter and history are
    kept, so a new [referenceRssi] does not re-centre the filter); an
    object without any of the model's properties changes nothing, merging
    the same updates twice is the same as merging them once, and of two
    successive updates of a property the later one wins. *)
Theorem updateModel_merges_into_model
  (this : DistanceEstimator.state) (updates : DistanceEstimator.ModelUpdates)
  (r1 r2 : R) :
  let only_referenceRssi r :=
    DistanceEstimator.mkUpdates None (Some r) None None None None None in
  DistanceEstimator.kalmanFilter (DistanceEstimator.updateModel this updates)
  = DistanceEstimator.kalmanFilter this
  /\ DistanceEstimator.rawHistory (DistanceEstimator.updateModel this updates)
     = DistanceEstimator.rawHistory this
  /\ DistanceEstimator.updateModel
       this (DistanceEstimator.mkUpdates None None None None None None None)
     = this
  /\ DistanceEstimator.updateModel
       (DistanceEstimator.updateModel this updates) updates
     = DistanceEstimator.updateModel this updates
  /\ DistanceEstimator.model
       (DistanceEstimator.updateModel
          (DistanceEstimator.updateModel this (only_referenceRssi r1))
          (only_referenceRssi r2))
     = DistanceEstimator.with_referenceRssi (DistanceEstimator.model this) r2.
Proof.
  intro only_referenceRssi.
  destruct this as [[nm ref d0 n lo hi rel] f h mx].
  destruct updates as [u1 u2 u3 u4 u5 u6 u7].
  repeat split.
  unfold DistanceEstimator.updateModel. cbn.
  destruct u1, u2, u3, u4, u5, u6, u7; reflexivity.
Qed.

Lemma get_None_not_In {A : Type} (key : string) (obj : list (string * A)) :
  MultiRadioEstimator.get key obj = None -> ~ In key (map fst obj).
Proof.
  induction obj as [| [k x] rest IH]; cbn; [tauto |].
  destruct (String.eqb_spec k key) as [-> | Hk]; [discriminate |].
  intros Hget [Heq | Hin]; [congruence | now apply IH].
Qed.

Lemma set_keys_NoDup {A : Type} (key : string) (v : A)
                     (obj : list (string * A)) :
  NoDup (map fst obj) -> NoDup (map fst (MultiRadioEstimator.set key v obj)).
Proof.
  intro Hnd.
  destruct (MultiRadioEstimator.get key obj) as [old |] eqn:Hget.
  - now rewrite (set_present_keys key v old obj Hget).
  - rewrite (set_absent key v obj Hget), map_app. cbn.
    apply NoDup_app; [exact Hnd | repeat constructor; intros [] |].
    intros k Hin [<- | []]. exact (get_None_not_In key obj Hget Hin).
Qed.

Lemma get_In {A : Type} (key : string) (v : A) (obj : list (string * A)) :
  NoDup (map fst obj) ->
  (In (key, v) obj <-> MultiRadioEstimator.get key obj = Some v).
Proof.
  induction obj as [| [k x] rest IH]; cbn; intro Hnd.
  - split; [intros [] | discriminate].
  - inversion Hnd as [| ? ? Hnotin Hrest]; subst.
    destruct (String.eqb_spec k key) as [-> | Hk].
    + split.
      * intros [Heq | Hin]; [congruence |].
        exfalso. apply Hnotin. apply in_map_iff. now exists (key, v).
      * intro Heq. left. congruence.
    + split.
      * intros [Heq | Hin]; [congruence | now apply IH].
      * intro Hget. right. now apply IH.
Qed.

(** X26.  A reachable fusion estimator holds one estimator per radio
    type: no key appears twice, so the entry [Object.entries] shows for a
    radio type is the estimator [this.estimators[radioType]] reads. *)
Theorem one_estimator_per_radio_type (this : MultiRadioEstimator.state) :
  MultiRadioEstimator.reachable this ->
  NoDup (map fst (MultiRadioEstimator.estimators this))
  /\ forall radioType e,
       In (radioType, e) (MultiRadioEstimator.estimators this)
       <-> MultiRadioEstimator.get radioType
                                   (MultiRadioEstimator.estimators this)
           = Some e.
Proof.
  intro Hreach.
  assert (Hnd : NoDup (map fst (MultiRadioEstimator.estimators this))).
  { induction Hreach as [| this c Hreach IH]; [constructor |].
    destruct c as [radioType rssi now | clock |];
      cbn [MultiRadioEstimator.perform].
    - rewrite addReading_estimators. apply set_keys_NoDup.
      destruct (MultiRadioEstimator.get radioType _); [exact IH |].
      now apply set_keys_NoDup.
    - rewrite getFusedEstimate_estimators.
      destruct (visit_all_shape this (MultiRadioEstimator.estimators this)
                                clock 0) as (Hkeys & _).
      now rewrite Hkeys.
    - cbn. rewrite map_map. cbn [fst]. exact IH. }
  split; [exact Hnd |].
  intros radioType e. now apply get_In.
Qed.

Lemma one_estimator_per_radio_type_witness :
  NoDup (map fst (MultiRadioEstimator.estimators two_readings_each)).
Proof.
  apply (one_estimator_per_radio_type two_readings_each).
  apply reachable_calls. constructor.
Defined.
